(** * SDS011 driver: protocol engine of [sds011/__init__.py]

    A shallow embedding of the [SDS011] class: command construction
    ([cmd_begin], [_finish_cmd]), reply validation ([_get_reply]), the mode,
    query, sleep, work-period and firmware operations, and the active-mode
    reader ([read], [_process_frame]).

    - A Python [bytes] object is a [list byte]; indexing a [bytes] object
      gives the integer [ord b].
    - The serial port is a record of the bytes the device still delivers and
      of the buffers written so far: [ser.read(size=n)] hands out at most [n]
      of the pending bytes and hands out fewer (possibly none) when the
      device has no more to give before the timeout.
    - A method is a function from the driver object to an [outcome]: a
      returned value, a raised exception, or [OutOfFuel] for a [while] loop
      that has not finished within the given number of iterations.
    - Python floats are IEEE binary64, as are Rocq's primitive floats.
    - The destructor [__del__] and the port settings (name, baud rate,
      timeout) are left out: no statement below depends on them. *)

From Stdlib Require Import ZArith List Bool Lia String.
From Stdlib Require Import PrimFloat Uint63 DecimalString.
From Stdlib Require Import Strings.Byte.
Import ListNotations.

Local Open Scope Z_scope.

(** ** Python values *)

Definition bytes := list byte.

(** [b[i]] on a bytes object is an integer in [range(256)]. *)
Definition ord (b : byte) : Z := Z.of_N (Byte.to_N b).

(** [sum(d for d in data)]: a left fold from 0. *)
Definition py_sum (data : bytes) : Z :=
  fold_left (fun acc d => acc + ord d) data 0.

(** [l[i:j]] and [l[i:]] for the literal, non-negative bounds of the source. *)
Definition slice {A} (l : list A) (i j : nat) : list A :=
  firstn (j - i) (skipn i l).

Definition slice_from {A} (l : list A) (i : nat) : list A := skipn i l.

(** [bytes == bytes]. *)
Definition bytes_eqb (a b : bytes) : bool :=
  if list_eq_dec Byte.byte_eq_dec a b then true else false.

(** The byte whose value is [n mod 256]. *)
Definition byte_mod (n : Z) : byte :=
  match Byte.of_N (Z.to_N (n mod 256)) with
  | Some b => b
  | None => x00
  end.

(** [int / 10.0]: the integer is converted to a float, then divided. *)
Definition div10 (v : Z) : float :=
  PrimFloat.div (PrimFloat.of_uint63 (Uint63.of_Z v)) 10%float.

Definition measurement : Type := float * float.

(** ** The driver object and the outcome of a method *)

Inductive exn : Set :=
| AssertionError
| IndexError
| TypeError
| ValueError
| StructError.

Record SDS011 : Type := mkSDS011 {
  use_query_mode : bool;   (* self.use_query_mode *)
  ser_is_open : bool;      (* self.ser.isOpen() *)
  ser_in : bytes;          (* bytes the device delivers to self.ser.read *)
  ser_out : list bytes;    (* buffers given to self.ser.write, oldest first *)
  stdout : list string     (* lines printed, oldest first *)
}.

Inductive outcome (A : Type) : Type :=
| Return (a : A) (self : SDS011)
| Raise (e : exn) (self : SDS011)
| OutOfFuel.

Arguments Return {A} a self.
Arguments Raise {A} e self.
Arguments OutOfFuel {A}.

Definition M (A : Type) : Type := SDS011 -> outcome A.

Definition ret {A} (a : A) : M A := fun self => Return a self.

Definition raise {A} (e : exn) : M A := fun self => Raise e self.

Definition bind {A B} (m : M A) (k : A -> M B) : M B :=
  fun self =>
    match m self with
    | Return a self' => k a self'
    | Raise e self' => Raise e self'
    | OutOfFuel => OutOfFuel
    end.

Notation "x <- m ;; k" := (bind m (fun x => k))
  (at level 61, m at next level, right associativity).
Notation "m ;;; k" := (bind m (fun _ => k))
  (at level 61, right associativity).

(** The value a method returned, if it returned. *)
Definition returned {A} (o : outcome A) : option A :=
  match o with
  | Return a _ => Some a
  | _ => None
  end.

(** The driver object a method left behind, if it returned or raised. *)
Definition final {A} (o : outcome A) : option SDS011 :=
  match o with
  | Return _ s => Some s
  | Raise _ s => Some s
  | OutOfFuel => None
  end.

Definition raises {A} (o : outcome A) : option exn :=
  match o with
  | Raise e _ => Some e
  | _ => None
  end.

(** ** Updates of the driver object *)

Definition with_mode (query : bool) (self : SDS011) : SDS011 :=
  mkSDS011 query (ser_is_open self) (ser_in self) (ser_out self) (stdout self).

Definition with_open (o : bool) (self : SDS011) : SDS011 :=
  mkSDS011 (use_query_mode self) o (ser_in self) (ser_out self) (stdout self).

(** The first [size] pending bytes have been handed out. *)
Definition with_taken (size : nat) (self : SDS011) : SDS011 :=
  mkSDS011 (use_query_mode self) (ser_is_open self)
           (skipn size (ser_in self)) (ser_out self) (stdout self).

Definition with_sent (cmd_bytes : bytes) (self : SDS011) : SDS011 :=
  mkSDS011 (use_query_mode self) (ser_is_open self) (ser_in self)
           (ser_out self ++ [cmd_bytes]) (stdout self).

Definition with_line (line : string) (self : SDS011) : SDS011 :=
  mkSDS011 (use_query_mode self) (ser_is_open self) (ser_in self)
           (ser_out self) (stdout self ++ [line]).

(** The pending bytes are now [pending]. *)
Definition with_in (pending : bytes) (self : SDS011) : SDS011 :=
  mkSDS011 (use_query_mode self) (ser_is_open self) pending
           (ser_out self) (stdout self).

(** ** The serial port ([self.ser]) *)

Definition is_serial_open : M bool :=
  fun self => Return (ser_is_open self) self.

(** [serial.Serial(port=..., baudrate=..., timeout=...)]: a fresh, open port. *)
Definition serial_Serial : M unit :=
  fun self => Return tt (with_open true self).

(** [self.ser.close()]. *)
Definition ser_close : M unit :=
  fun self => Return tt (with_open false self).

(** [self.ser.flush()] waits for pending output; nothing to do here. *)
Definition ser_flush : M unit := ret tt.

Definition ser_write (cmd_bytes : bytes) : M unit :=
  fun self => Return tt (with_sent cmd_bytes self).

(** [self.ser.read(size=n)]: at most [n] of the pending bytes. *)
Definition ser_read (size : nat) : M bytes :=
  fun self => Return (firstn size (ser_in self)) (with_taken size self).

Definition get_use_query_mode : M bool :=
  fun self => Return (use_query_mode self) self.

Definition set_use_query_mode (query : bool) : M unit :=
  fun self => Return tt (with_mode query self).

Definition print (line : string) : M unit :=
  fun self => Return tt (with_line line self).

(** ** Python primitives that can raise *)

(** [raw[i]]. *)
Definition index (raw : bytes) (i : nat) : M Z :=
  match nth_error raw i with
  | Some b => ret (ord b)
  | None => raise IndexError
  end.

(** [bytes([n])]: [ValueError] unless [n] is in [range(256)]. *)
Definition bytes_of_int (n : Z) : M bytes :=
  if (0 <=? n) && (n <? 256) then
    match Byte.of_N (Z.to_N n) with
    | Some b => ret [b]
    | None => raise ValueError
    end
  else raise ValueError.

(** An unsigned little-endian 16-bit field. *)
Definition le16 (lo hi : byte) : Z := Z.lor (ord lo) (Z.shiftl (ord hi) 8).

(** [struct.unpack('B', b)]: exactly one byte. *)
Definition unpack_B (b : bytes) : M Z :=
  match b with
  | [v] => ret (ord v)
  | _ => raise StructError
  end.

(** [struct.unpack('<HH', b)]: exactly four bytes. *)
Definition unpack_HH (b : bytes) : M (Z * Z) :=
  match b with
  | [a0; a1; b0; b1] => ret (le16 a0 a1, le16 b0 b1)
  | _ => raise StructError
  end.

(** [struct.unpack('<HHxxBBB', b)]: exactly nine bytes, two of them padding. *)
Definition unpack_HHxxBBB (b : bytes) : M (Z * Z * Z * Z * Z) :=
  match b with
  | [a0; a1; b0; b1; _; _; c; d; e] =>
      ret (le16 a0 a1, le16 b0 b1, ord c, ord d, ord e)
  | _ => raise StructError
  end.

(** ** Class constants *)

Definition HEAD : bytes := [xaa].
Definition TAIL : bytes := [xab].
Definition CMD_ID : bytes := [xb4].
Definition READ : bytes := [x00].
Definition WRITE : bytes := [x01].
Definition REPORT_MODE_CMD : bytes := [x02].
Definition ACTIVE : bytes := [x00].
Definition PASSIVE : bytes := [x01].
Definition QUERY_CMD : bytes := [x04].
Definition SLEEP_CMD : bytes := [x06].
Definition SLEEP : bytes := [x00].
Definition WORK : bytes := [x01].
Definition WORK_PERIOD_CMD : bytes := [x08].
Definition FIRMWARE_VERSION_CMD : bytes := [x07].

(** ** Command construction *)

Definition cmd_begin : bytes := HEAD ++ CMD_ID.

(** [_finish_cmd(cmd, id1, id2)]; the callers all use the defaults
    [id1 = id2 = b"\xff"]. *)
Definition _finish_cmd (cmd id1 id2 : bytes) : M bytes :=
  let cmd := cmd ++ id1 ++ id2 in
  let checksum := py_sum (slice_from cmd 2) mod 256 in
  c <- bytes_of_int checksum ;;
  ret (cmd ++ c ++ TAIL).

(** ** Transport helpers and [set_report_mode]

    [_execute] and [_get_reply] reopen a closed port through [open_serial],
    which itself calls [set_report_mode], which calls them again.  The three
    are first written over the [open_serial] they call; the port that
    [open_serial] creates is open, so the calls nested in it never reach
    their own [open_serial] (lemma [open_serial_unfold] below). *)

Module Guarded.
Section WithOpenSerial.

Variable open_serial : M unit.

Definition _execute (cmd_bytes : bytes) : M unit :=
  o <- is_serial_open ;;
  (if negb o then open_serial else ret tt) ;;;
  ser_write cmd_bytes.

Definition _get_reply : M (option bytes) :=
  o <- is_serial_open ;;
  (if negb o then open_serial else ret tt) ;;;
  raw <- ser_read 10 ;;
  let data := slice raw 2 8 in
  if (List.length data =? 0)%nat then ret None
  else
    r8 <- index raw 8 ;;
    if negb (Z.land (py_sum data) 255 =? r8) then ret None
    else ret (Some raw).

Definition set_report_mode (read query : bool) : M (option Z) :=
  set_use_query_mode query ;;;
  let cmd := cmd_begin in
  let cmd := cmd ++ (REPORT_MODE_CMD
                     ++ (if read then READ else WRITE)
                     ++ (if query then PASSIVE else ACTIVE)
                     ++ repeat x00 10) in
  cmd <- _finish_cmd cmd [xff] [xff] ;;
  _execute cmd ;;;
  raw <- _get_reply ;;
  match raw with
  | None => ret None
  | Some raw =>
      data <- unpack_B (slice raw 4 5) ;;
      ret (Some data)
  end.

Definition open_serial_body : M unit :=
  serial_Serial ;;;
  ser_flush ;;;
  q <- get_use_query_mode ;;
  set_report_mode false q ;;;
  ret tt.

End WithOpenSerial.
End Guarded.

(** [open_serial] with the nesting cut after [depth] levels. *)
Fixpoint open_serial_upto (depth : nat) : M unit :=
  match depth with
  | O => fun _ => OutOfFuel
  | S depth' => Guarded.open_serial_body (open_serial_upto depth')
  end.

Definition open_serial : M unit := open_serial_upto 1.

Definition _execute : bytes -> M unit := Guarded._execute open_serial.

Definition _get_reply : M (option bytes) := Guarded._get_reply open_serial.

Definition set_report_mode : bool -> bool -> M (option Z) :=
  Guarded.set_report_mode open_serial.

Definition close_serial : M unit := ser_close.

(** [SDS011(serial_port, use_query_mode=...)] on a device that will deliver
    [device]. *)
Definition __init__ (query : bool) (device : bytes) : outcome unit :=
  (serial_Serial ;;;
   ser_flush ;;;
   set_report_mode false query ;;;
   ret tt) (mkSDS011 query false device [] []).

(** ** The remaining operations *)

Definition query : M (option measurement) :=
  let cmd := cmd_begin in
  let cmd := cmd ++ (QUERY_CMD ++ repeat x00 12) in
  cmd <- _finish_cmd cmd [xff] [xff] ;;
  _execute cmd ;;;
  raw <- _get_reply ;;
  match raw with
  | None =>
      q <- get_use_query_mode ;;
      (if negb q
       then print "SDS011 is in active reporting mode, use read()"
       else ret tt) ;;;
      ret None
  | Some raw =>
      data <- unpack_HH (slice raw 2 6) ;;
      let pm25 := div10 (fst data) in
      let pm10 := div10 (snd data) in
      ret (Some (pm25, pm10))
  end.

Definition sleep (read sleep : bool) : M Z :=
  let cmd := cmd_begin in
  let cmd := cmd ++ (SLEEP_CMD
                     ++ (if read then READ else WRITE)
                     ++ (if sleep then SLEEP else WORK)
                     ++ repeat x00 10) in
  cmd <- _finish_cmd cmd [xff] [xff] ;;
  _execute cmd ;;;
  raw <- _get_reply ;;
  match raw with
  | None => ret 0
  | Some raw =>
      data <- unpack_B (slice raw 4 5) ;;
      ret data
  end.

Definition set_work_period (read : bool) (work_time : Z) : M unit :=
  if negb ((work_time >=? 0) && (work_time <=? 30)) then raise AssertionError
  else
    let cmd := cmd_begin in
    w <- bytes_of_int work_time ;;
    let cmd := cmd ++ (WORK_PERIOD_CMD
                       ++ (if read then READ else WRITE)
                       ++ w
                       ++ repeat x00 10) in
    cmd <- _finish_cmd cmd [xff] [xff] ;;
    _execute cmd ;;;
    _get_reply ;;;
    ret tt.

Definition _process_frame (data : bytes) : M (option measurement) :=
  raw <- unpack_HHxxBBB (slice_from data 2) ;;
  let checksum := py_sum (slice data 2 8) mod 256 in
  d8 <- index data 8 ;;
  if negb (checksum =? d8) then ret None
  else
    let '(r0, r1, _, _, _) := raw in
    let pm25 := div10 r0 in
    let pm10 := div10 r1 in
    ret (Some (pm25, pm10)).

(** The loop variable [byte] of [read]: the integer [0] before the first
    iteration, a bytes object afterwards. *)
Inductive loop_byte : Type :=
| PyInt (n : Z)
| PyBytes (b : bytes).

(** [byte != self.HEAD]; an [int] never equals a [bytes] object. *)
Definition differs_from_HEAD (byte : loop_byte) : bool :=
  match byte with
  | PyInt _ => true
  | PyBytes b => negb (bytes_eqb b HEAD)
  end.

Definition is_None {A} (o : option A) : bool :=
  match o with
  | None => true
  | Some _ => false
  end.

(** The [while] loop of [read], run for at most [fuel] iterations. *)
Fixpoint read_while (fuel : nat) (byte : loop_byte) : M (option measurement) :=
  if differs_from_HEAD byte then
    match fuel with
    | O => fun _ => OutOfFuel
    | S fuel' =>
        byte <- ser_read 1 ;;
        d <- ser_read 10 ;;
        if bytes_eqb (slice d 0 1) [xc0] then
          data <- _process_frame (byte ++ d) ;;
          q <- get_use_query_mode ;;
          (if is_None data && q
           then print "SDS011 is in query reporting mode, use query()"
           else ret tt) ;;;
          ret data
        else read_while fuel' (PyBytes byte)
    end
  else ret None.

Definition read (fuel : nat) : M (option measurement) :=
  o <- is_serial_open ;;
  (if negb o then open_serial else ret tt) ;;;
  read_while fuel (PyInt 0).

(** [f"{n}"] for an integer. *)
Definition format_int (n : Z) : string := NilZero.string_of_int (Z.to_int n).

Definition check_firmware_version : M string :=
  let cmd := cmd_begin in
  let cmd := cmd ++ (FIRMWARE_VERSION_CMD ++ repeat x00 12) in
  cmd <- _finish_cmd cmd [xff] [xff] ;;
  _execute cmd ;;;
  raw <- _get_reply ;;
  match raw with
  | None => raise TypeError
  | Some raw =>
      year <- index raw 2 ;;
      month <- index raw 3 ;;
      day <- index raw 4 ;;
      ret (format_int year ++ "-" ++ format_int month ++ "-"
           ++ format_int day)%string
  end.

(** [try: body except Exception: handler]. Every exception of this model
    is an [Exception] and none is a [serial.SerialException], so the second
    [except] clause of [__del__] is the one that catches. *)
Definition try_except {A} (body : M A) (handler : exn -> M A) : M A :=
  fun self =>
    match body self with
    | Raise e self' => handler e self'
    | o => o
    end.

(** The destructor; [self.sleep()] is [sleep(read=False, sleep=True)]. *)
Definition __del__ : M unit :=
  try_except
    (o <- is_serial_open ;;
     (if negb o then
        open_serial ;;;
        sleep false true ;;;
        ret tt
      else ret tt) ;;;
     ser_close)
    (fun _ => print "Exception when destructing SDS011 class").

(** * Vocabulary of the statements *)

(** A driver whose port is open, as the constructor leaves it, on a device
    that will deliver [device]. *)
Definition driver (query : bool) (device : bytes) : SDS011 :=
  mkSDS011 query true device [] [].

(** Byte 8 of [raw] is the sum of bytes 2 to 7, mod 256. *)
Definition checksum_ok (raw : bytes) : bool :=
  match nth_error raw 8 with
  | Some c => py_sum (slice raw 2 8) mod 256 =? ord c
  | None => false
  end.

(** What [_get_reply] makes of the bytes [raw] that [ser.read(size=10)] gave
    it; [self] is the driver after the read. *)
Definition reply_verdict (raw : bytes) (self : SDS011) : outcome (option bytes) :=
  if (List.length raw <=? 2)%nat then Return None self
  else if (List.length raw <=? 8)%nat then Raise IndexError self
  else if checksum_ok raw then Return (Some raw) self
  else Return None self.

(** The validator as the specification words it, to compare with
    [_get_reply]: the frame iff the head byte is 0xAA and the checksum
    holds. *)
Definition FrameValidator_validate (buffer : bytes) : option bytes :=
  match buffer with
  | h :: _ =>
      if Byte.eqb h xaa && checksum_ok buffer then Some buffer else None
  | [] => None
  end.

(** The 16-bit field at offset [i] of a frame, and the measurement a frame
    carries. *)
Definition field (frame : bytes) (i : nat) : Z :=
  ord (nth i frame x00) + 256 * ord (nth (S i) frame x00).

Definition measurement_of (frame : bytes) : measurement :=
  (div10 (field frame 2), div10 (field frame 4)).

(** What [_finish_cmd] returns on the default device id. *)
Definition finished (cmd : bytes) : bytes :=
  (cmd ++ [xff] ++ [xff])
    ++ [byte_mod (py_sum (slice_from (cmd ++ [xff] ++ [xff]) 2))] ++ TAIL.

(** The 19-byte commands of the operations. *)
Definition report_mode_command (read query : bool) : bytes :=
  finished (cmd_begin ++ (REPORT_MODE_CMD
                          ++ (if read then READ else WRITE)
                          ++ (if query then PASSIVE else ACTIVE)
                          ++ repeat x00 10)).

Definition query_command : bytes :=
  finished (cmd_begin ++ (QUERY_CMD ++ repeat x00 12)).

Definition sleep_command (read sleep : bool) : bytes :=
  finished (cmd_begin ++ (SLEEP_CMD
                          ++ (if read then READ else WRITE)
                          ++ (if sleep then SLEEP else WORK)
                          ++ repeat x00 10)).

Definition work_period_command (read : bool) (work_time : Z) : bytes :=
  finished (cmd_begin ++ (WORK_PERIOD_CMD
                          ++ (if read then READ else WRITE)
                          ++ [byte_mod work_time]
                          ++ repeat x00 10)).

Definition firmware_command : bytes :=
  finished (cmd_begin ++ (FIRMWARE_VERSION_CMD ++ repeat x00 12)).

(** An 11-byte window that [read] passes over: its first byte is not the
    head 0xAA and its second byte is not the marker 0xC0. *)
Definition noise_window (w : bytes) : bool :=
  match w with
  | b :: m :: _ =>
      (List.length w =? 11)%nat && negb (Byte.eqb b xaa) && negb (Byte.eqb m xc0)
  | _ => false
  end.

(** A measurement frame: the fields are 250 and 450 (tenths of a microgram
    per cubic metre), the marker is 0xC0 and the checksum holds. *)
Definition frame_25_45 : bytes :=
  [xaa; xc0; xfa; x00; xc2; x01; x00; x00; xbd; xab].

(** The body of one iteration of [read], after its two reads. *)
Definition read_iteration
  (continue : loop_byte -> M (option measurement)) (byte d : bytes)
  : M (option measurement) :=
  if bytes_eqb (slice d 0 1) [xc0] then
    data <- _process_frame (byte ++ d) ;;
    q <- get_use_query_mode ;;
    (if is_None data && q
     then print "SDS011 is in query reporting mode, use query()"
     else ret tt) ;;;
    ret data
  else continue (PyBytes byte).

(** What [check_firmware_version] renders from a reply: bytes 2, 3 and 4 in
    decimal, joined by dashes. *)
Definition firmware_string (raw : bytes) : string :=
  (format_int (ord (nth 2 raw x00)) ++ "-"
   ++ format_int (ord (nth 3 raw x00)) ++ "-"
   ++ format_int (ord (nth 4 raw x00)))%string.

(** The pending bytes let [read] leave its loop: some 11-byte window begins
    with the head 0xAA or carries the marker 0xC0 at offset 1. *)
Inductive leaves_loop : bytes -> Prop :=
| leaves_marker (pending : bytes) :
    nth_error pending 1 = Some xc0 -> leaves_loop pending
| leaves_head (pending : bytes) :
    nth_error pending 0 = Some xaa -> leaves_loop pending
| leaves_later (pending : bytes) :
    leaves_loop (skipn 11 pending) -> leaves_loop pending.

(** A computation that always comes back (by a result or an exception) and
    leaves [use_query_mode] as it found it. *)
Definition keeps_mode {A} (m : M A) : Prop :=
  forall s, exists s', final (m s) = Some s'
                       /\ use_query_mode s' = use_query_mode s.

(** A computation that leaves [use_query_mode] as it found it whenever it
    comes back; it may also run out of fuel. *)
Definition keeps_mode_if_back {A} (m : M A) : Prop :=
  forall s s', final (m s) = Some s' -> use_query_mode s' = use_query_mode s.

(** A reply to the report-mode command, reporting active mode. *)
Definition report_mode_reply : bytes :=
  [xaa; xc5; x02; x00; x00; x00; xa1; x60; x03; xab].


(** The driver after [open_serial] on it: the port is open, the report-mode
    write for the cached mode has been sent and one reply read. *)
Definition reopened (self : SDS011) : SDS011 :=
  with_taken 10
    (with_sent (report_mode_command false (use_query_mode self))
               (with_open true self)).

(** [raw] with the byte at offset [i] replaced by [b]. *)
Definition corrupt (i : nat) (b : byte) (raw : bytes) : bytes :=
  firstn i raw ++ b :: skipn (S i) raw.

(** A reply that carries 0x07 at offset 2 and then 18, 11, 16. *)
Definition firmware_reply : bytes :=
  [xaa; xc5; x07; x12; x0b; x10; xa1; x60; x35; xab].

(** Between [self] and [s] exactly the command [cmd] was written and ten
    bytes (or what was left of them) were taken off the input. *)
Definition exchanged (cmd : bytes) (self s : SDS011) : Prop :=
  ser_out s = ser_out self ++ [cmd]
  /\ ser_in s = skipn 10 (ser_in self)
  /\ ser_is_open s = ser_is_open self.

(** A reply to the sleep command that reports the same fields as
    [frame_25_45] would: only bytes 0, 1 and 9 differ. *)
Definition frame_25_45_relabelled : bytes :=
  [x00; xc5; xfa; x00; xc2; x01; x00; x00; xbd; x00].

(** Lists of a known length, taken apart element by element. *)
Ltac explode l :=
  repeat (let b := fresh "b" in
          destruct l as [|b l]; simpl in *; try discriminate; try lia).

Arguments py_sum : simpl never.
Arguments ord : simpl never.
Arguments byte_mod : simpl never.
Arguments div10 : simpl never.
Arguments le16 : simpl never.

(** * Properties *)

(** ** Bytes, sums and fields *)

Lemma ord_range (b : byte) : 0 <= ord b < 256.
Proof.
  unfold ord. pose proof (Byte.to_N_bounded b) as H.
  apply N2Z.inj_le in H. simpl in H. lia.
Qed.

Lemma fold_sum_shift (data : bytes) (acc : Z) :
  fold_left (fun a d => a + ord d) data acc = acc + py_sum data.
Proof.
  unfold py_sum. revert acc.
  induction data as [|d data IH]; intros acc; simpl.
  - lia.
  - rewrite (IH (acc + ord d)), (IH (ord d)). lia.
Qed.

Lemma py_sum_nil : py_sum [] = 0.
Proof. reflexivity. Qed.

Lemma py_sum_cons (d : byte) (data : bytes) :
  py_sum (d :: data) = ord d + py_sum data.
Proof. unfold py_sum at 1. simpl. apply fold_sum_shift. Qed.

Lemma py_sum_nonneg (data : bytes) : 0 <= py_sum data.
Proof.
  induction data as [|d data IH].
  - rewrite py_sum_nil. lia.
  - rewrite py_sum_cons. pose proof (ord_range d). lia.
Qed.

(** [s & 255] and [s % 256] agree on a sum of bytes. *)
Lemma land_255_mod (s : Z) : Z.land s 255 = s mod 256.
Proof. change 255 with (Z.ones 8). rewrite Z.land_ones by lia. reflexivity. Qed.

Lemma byte_mod_ord (n : Z) : ord (byte_mod n) = n mod 256.
Proof.
  unfold byte_mod, ord.
  pose proof (Z.mod_pos_bound n 256 ltac:(lia)) as Hr.
  destruct (Byte.of_N (Z.to_N (n mod 256))) as [b|] eqn:E.
  - apply Byte.to_of_N in E. rewrite E. lia.
  - apply Byte.of_N_None_iff in E. lia.
Qed.

Lemma bytes_of_int_mod (n : Z) (self : SDS011) :
  bytes_of_int (n mod 256) self = Return [byte_mod n] self.
Proof.
  unfold bytes_of_int, byte_mod.
  pose proof (Z.mod_pos_bound n 256 ltac:(lia)) as Hr.
  replace ((0 <=? n mod 256) && (n mod 256 <? 256)) with true
    by (symmetry; apply andb_true_iff; split; [apply Z.leb_le|apply Z.ltb_lt]; lia).
  destruct (Byte.of_N (Z.to_N (n mod 256))) as [b|] eqn:E.
  - reflexivity.
  - apply Byte.of_N_None_iff in E. lia.
Qed.

(** The two bytes of a field, low byte first. *)
Lemma le16_value (lo hi : byte) : le16 lo hi = ord lo + 256 * ord hi.
Proof.
  unfold le16.
  pose proof (ord_range lo) as Hlo. pose proof (ord_range hi) as Hhi.
  assert (Hdisj : Z.land (ord lo) (Z.shiftl (ord hi) 8) = 0).
  { apply Z.bits_inj'. intros n Hn.
    rewrite Z.land_spec, Z.bits_0.
    destruct (Z.ltb_spec n 8) as [Hlt|Hge].
    - rewrite Z.shiftl_spec_low by lia. apply andb_false_r.
    - assert (E : ord lo mod 2 ^ 8 = ord lo)
        by (apply Z.mod_small; change (2 ^ 8) with 256; lia).
      rewrite <- E, Z.mod_pow2_bits_high by lia. reflexivity. }
  rewrite <- Z.lxor_lor by exact Hdisj.
  rewrite <- Z.add_nocarry_lxor by exact Hdisj.
  rewrite Z.shiftl_mul_pow2 by lia. change (2 ^ 8) with 256. lia.
Qed.

Lemma le16_range (lo hi : byte) : 0 <= le16 lo hi < 65536.
Proof.
  rewrite le16_value.
  pose proof (ord_range lo). pose proof (ord_range hi). lia.
Qed.

Lemma bytes_eqb_eq (a b : bytes) : bytes_eqb a b = true <-> a = b.
Proof.
  unfold bytes_eqb. destruct (list_eq_dec Byte.byte_eq_dec a b); split;
    intros; congruence.
Qed.

Lemma bytes_eqb_refl (a : bytes) : bytes_eqb a a = true.
Proof. apply bytes_eqb_eq. reflexivity. Qed.

Lemma bytes_eqb_neq (a b : bytes) : a <> b -> bytes_eqb a b = false.
Proof.
  intros H. destruct (bytes_eqb a b) eqn:E; [|reflexivity].
  apply bytes_eqb_eq in E. contradiction.
Qed.

(** ** Command construction *)

Lemma _finish_cmd_returns (cmd : bytes) (self : SDS011) :
  _finish_cmd cmd [xff] [xff] self = Return (finished cmd) self.
Proof.
  unfold _finish_cmd, bind. rewrite bytes_of_int_mod. reflexivity.
Qed.

Lemma finished_length (cmd : bytes) :
  List.length (finished cmd) = (List.length cmd + 4)%nat.
Proof. unfold finished. rewrite !length_app. simpl. lia. Qed.

(** The layout of a finished 15-byte command. *)
Lemma finished_layout (cmd : bytes) :
  List.length cmd = 15%nat ->
  List.length (finished cmd) = 19%nat
  /\ nth_error (finished cmd) 18 = Some xab
  /\ exists c, nth_error (finished cmd) 17 = Some c
               /\ ord c = py_sum (slice (finished cmd) 2 17) mod 256.
Proof.
  intros Hlen.
  split; [rewrite finished_length, Hlen; reflexivity|].
  explode cmd. split; [reflexivity|].
  eexists. split; [reflexivity|]. apply byte_mod_ord.
Qed.

(** C6. For every command id and every 12-byte payload, the buffer built by
    [cmd_begin], the id, the payload and [_finish_cmd] has exactly 19 bytes,
    ends in 0xAB, and its byte at offset 17 is the sum of the bytes at
    offsets 2 to 16, mod 256. *)
Theorem built_command_layout
  (cmd_id : byte) (payload : bytes) (self : SDS011) :
  List.length payload = 12%nat ->
  exists cmd c,
    _finish_cmd (cmd_begin ++ [cmd_id] ++ payload) [xff] [xff] self
      = Return cmd self
    /\ List.length cmd = 19%nat
    /\ nth_error cmd 18 = Some xab
    /\ nth_error cmd 17 = Some c
    /\ ord c = py_sum (slice cmd 2 17) mod 256.
Proof.
  intros Hlen.
  destruct (finished_layout (cmd_begin ++ [cmd_id] ++ payload))
    as (H19 & Htail & c & Hc & Hsum).
  { rewrite !length_app, Hlen. reflexivity. }
  exists (finished (cmd_begin ++ [cmd_id] ++ payload)), c.
  split; [apply _finish_cmd_returns|].
  repeat split; assumption.
Qed.

Lemma built_command_layout_query :
  exists cmd c,
    _finish_cmd (cmd_begin ++ [x04] ++ repeat x00 12) [xff] [xff]
                (driver true [])
      = Return cmd (driver true [])
    /\ List.length cmd = 19%nat
    /\ nth_error cmd 18 = Some xab
    /\ nth_error cmd 17 = Some c
    /\ ord c = py_sum (slice cmd 2 17) mod 256.
Proof.
  apply (built_command_layout x04 (repeat x00 12)). reflexivity.
Defined.

(** The commands the five operations write all have that layout. *)
Lemma operation_commands_layout (r f : bool) (work_time : Z) :
  Forall (fun cmd =>
            List.length cmd = 19%nat
            /\ nth_error cmd 18 = Some xab
            /\ exists c, nth_error cmd 17 = Some c
                         /\ ord c = py_sum (slice cmd 2 17) mod 256)
         [report_mode_command r f; query_command; sleep_command r f;
          work_period_command r work_time; firmware_command].
Proof.
  repeat constructor; apply finished_layout; destruct r, f; reflexivity.
Qed.

Lemma bytes_of_int_small (n : Z) (self : SDS011) :
  0 <= n < 256 -> bytes_of_int n self = Return [byte_mod n] self.
Proof.
  intros Hn. rewrite <- (Z.mod_small n 256) at 1 by lia.
  apply bytes_of_int_mod.
Qed.

(** ** The transport helpers on an open port *)

Lemma _execute_open (os : M unit) (cmd : bytes) (self : SDS011) :
  ser_is_open self = true ->
  Guarded._execute os cmd self = Return tt (with_sent cmd self).
Proof.
  intros Ho. unfold Guarded._execute, bind, is_serial_open.
  rewrite Ho. reflexivity.
Qed.

Lemma _get_reply_open (os : M unit) (self : SDS011) :
  ser_is_open self = true ->
  Guarded._get_reply os self
  = reply_verdict (firstn 10 (ser_in self)) (with_taken 10 self).
Proof.
  intros Ho. unfold Guarded._get_reply, bind, is_serial_open, ser_read.
  rewrite Ho. cbv beta iota delta [negb ret].
  pose proof (firstn_le_length 10 (ser_in self)) as Hle.
  generalize dependent (firstn 10 (ser_in self)).
  generalize (with_taken 10 self). clear.
  intros self' raw Hle. unfold reply_verdict, checksum_ok, index, slice.
  explode raw; try reflexivity.
  all: rewrite land_255_mod; destruct (_ =? _); reflexivity.
Qed.

Lemma reply_verdict_cases (raw : bytes) (self : SDS011) :
  ((List.length raw <= 2)%nat /\ reply_verdict raw self = Return None self)
  \/ ((3 <= List.length raw <= 8)%nat
      /\ reply_verdict raw self = Raise IndexError self)
  \/ ((9 <= List.length raw)%nat /\ checksum_ok raw = false
      /\ reply_verdict raw self = Return None self)
  \/ ((9 <= List.length raw)%nat /\ checksum_ok raw = true
      /\ reply_verdict raw self = Return (Some raw) self).
Proof.
  unfold reply_verdict.
  destruct (Nat.leb_spec (List.length raw) 2) as [H2|H2]; [left; split; [lia|reflexivity]|].
  destruct (Nat.leb_spec (List.length raw) 8) as [H8|H8]; [right; left; split; [lia|reflexivity]|].
  right; right.
  destruct (checksum_ok raw); [right|left]; repeat split; lia.
Qed.

Lemma slice_one (raw : bytes) (i : nat) :
  (i < List.length raw)%nat -> slice raw i (S i) = [nth i raw x00].
Proof.
  unfold slice. replace (S i - i)%nat with 1%nat by lia.
  revert raw. induction i as [|i IH]; intros [|b raw] Hlen; simpl in *;
    try lia; [reflexivity|].
  apply IH. lia.
Qed.

Lemma nth_error_nth_byte (raw : bytes) (i : nat) :
  (i < List.length raw)%nat -> nth_error raw i = Some (nth i raw x00).
Proof. intros H. apply nth_error_nth'. exact H. Qed.

(** [set_report_mode] on an open port: the cached mode is set to [query]
    first, the command is written, and the reply decides the result. *)
Lemma set_report_mode_open (os : M unit) (read query : bool) (self : SDS011) :
  ser_is_open self = true ->
  Guarded.set_report_mode os read query self
  = match reply_verdict (firstn 10 (ser_in self))
            (with_taken 10 (with_sent (report_mode_command read query)
                                      (with_mode query self))) with
    | Return (Some raw) s => Return (Some (ord (nth 4 raw x00))) s
    | Return None s => Return None s
    | Raise e s => Raise e s
    | OutOfFuel => OutOfFuel
    end.
Proof.
  intros Ho. unfold Guarded.set_report_mode, bind at 1 2 3.
  unfold set_use_query_mode. rewrite _finish_cmd_returns.
  unfold bind at 1. rewrite _execute_open by exact Ho.
  unfold bind. rewrite _get_reply_open by exact Ho.
  change (ser_in (with_sent _ _)) with (ser_in self).
  fold (report_mode_command read query).
  destruct (reply_verdict_cases (firstn 10 (ser_in self))
              (with_taken 10 (with_sent (report_mode_command read query)
                                        (with_mode query self))))
    as [[_ E]|[[_ E]|[[_ [_ E]]|[Hl [_ E]]]]]; rewrite E; try reflexivity.
  rewrite slice_one by lia. reflexivity.
Qed.

(** The port that [open_serial] creates is open, so the [set_report_mode]
    nested in it never reopens: [open_serial] satisfies the recursive
    equation of the source. *)
Lemma open_serial_unfold (self : SDS011) :
  open_serial self = Guarded.open_serial_body open_serial self.
Proof.
  unfold open_serial at 1. simpl.
  unfold Guarded.open_serial_body, bind, serial_Serial, ser_flush, ret,
    get_use_query_mode.
  rewrite !set_report_mode_open by reflexivity. reflexivity.
Qed.

Lemma open_serial_depth (depth : nat) (self : SDS011) :
  open_serial_upto (S depth) self = open_serial self.
Proof.
  unfold open_serial. simpl.
  unfold Guarded.open_serial_body, bind, serial_Serial, ser_flush, ret,
    get_use_query_mode.
  rewrite !set_report_mode_open by reflexivity. reflexivity.
Qed.

Lemma long_reply_shape (raw : bytes) :
  (9 <= List.length raw)%nat ->
  exists b0 b1 b2 b3 b4 b5 b6 b7 b8 rest,
    raw = b0 :: b1 :: b2 :: b3 :: b4 :: b5 :: b6 :: b7 :: b8 :: rest.
Proof.
  intros H.
  do 9 (destruct raw as [|? raw]; [simpl in H; lia|]).
  repeat eexists.
Qed.

(** ** The operations on an open port *)

Ltac on_reply self cmd :=
  destruct (reply_verdict_cases (firstn 10 (ser_in self))
              (with_taken 10 (with_sent cmd self)))
    as [[_ E]|[[_ E]|[[_ [_ E]]|[Hl [_ E]]]]]; rewrite E; try reflexivity.

Lemma query_open (self : SDS011) :
  ser_is_open self = true ->
  query self
  = match reply_verdict (firstn 10 (ser_in self))
            (with_taken 10 (with_sent query_command self)) with
    | Return (Some raw) s => Return (Some (measurement_of raw)) s
    | Return None s =>
        Return None
          (if use_query_mode s then s
           else with_line "SDS011 is in active reporting mode, use read()" s)
    | Raise e s => Raise e s
    | OutOfFuel => OutOfFuel
    end.
Proof.
  intros Ho. unfold query, bind at 1. rewrite _finish_cmd_returns.
  unfold bind at 1, _execute. rewrite _execute_open by exact Ho.
  unfold bind at 1, _get_reply. rewrite _get_reply_open by exact Ho.
  change (ser_in (with_sent _ _)) with (ser_in self).
  fold query_command.
  on_reply self query_command.
  - unfold bind, get_use_query_mode.
    destruct (use_query_mode _); reflexivity.
  - unfold bind, get_use_query_mode.
    destruct (use_query_mode _); reflexivity.
  - destruct (long_reply_shape _ Hl)
      as (b0 & b1 & b2 & b3 & b4 & b5 & b6 & b7 & b8 & rest & ->).
    unfold bind, measurement_of, field. simpl.
    rewrite !le16_value. reflexivity.
Qed.

Lemma sleep_open (read sleep_flag : bool) (self : SDS011) :
  ser_is_open self = true ->
  sleep read sleep_flag self
  = match reply_verdict (firstn 10 (ser_in self))
            (with_taken 10 (with_sent (sleep_command read sleep_flag) self)) with
    | Return (Some raw) s => Return (ord (nth 4 raw x00)) s
    | Return None s => Return 0 s
    | Raise e s => Raise e s
    | OutOfFuel => OutOfFuel
    end.
Proof.
  intros Ho. unfold sleep, bind at 1. rewrite _finish_cmd_returns.
  unfold bind at 1, _execute. rewrite _execute_open by exact Ho.
  unfold bind at 1, _get_reply. rewrite _get_reply_open by exact Ho.
  change (ser_in (with_sent _ _)) with (ser_in self).
  fold (sleep_command read sleep_flag).
  on_reply self (sleep_command read sleep_flag).
  unfold bind. rewrite slice_one by lia. reflexivity.
Qed.

Lemma set_work_period_open (read : bool) (work_time : Z) (self : SDS011) :
  ser_is_open self = true ->
  0 <= work_time <= 30 ->
  set_work_period read work_time self
  = match reply_verdict (firstn 10 (ser_in self))
            (with_taken 10
               (with_sent (work_period_command read work_time) self)) with
    | Return _ s => Return tt s
    | Raise e s => Raise e s
    | OutOfFuel => OutOfFuel
    end.
Proof.
  intros Ho Hw. unfold set_work_period.
  replace ((work_time >=? 0) && (work_time <=? 30)) with true
    by (symmetry; apply andb_true_iff; split;
        [apply Z.geb_le|apply Z.leb_le]; lia).
  cbv beta iota delta [negb].
  unfold bind at 1. rewrite bytes_of_int_small by lia.
  unfold bind at 1. rewrite _finish_cmd_returns.
  unfold bind at 1, _execute. rewrite _execute_open by exact Ho.
  unfold bind at 1, _get_reply. rewrite _get_reply_open by exact Ho.
  change (ser_in (with_sent _ _)) with (ser_in self).
  fold (work_period_command read work_time).
  on_reply self (work_period_command read work_time).
Qed.

Lemma check_firmware_version_open (self : SDS011) :
  ser_is_open self = true ->
  check_firmware_version self
  = match reply_verdict (firstn 10 (ser_in self))
            (with_taken 10 (with_sent firmware_command self)) with
    | Return (Some raw) s => Return (firmware_string raw) s
    | Return None s => Raise TypeError s
    | Raise e s => Raise e s
    | OutOfFuel => OutOfFuel
    end.
Proof.
  intros Ho. unfold check_firmware_version, bind at 1.
  rewrite _finish_cmd_returns.
  unfold bind at 1, _execute. rewrite _execute_open by exact Ho.
  unfold bind at 1, _get_reply. rewrite _get_reply_open by exact Ho.
  change (ser_in (with_sent _ _)) with (ser_in self).
  fold firmware_command.
  on_reply self firmware_command.
  destruct (long_reply_shape _ Hl)
    as (b0 & b1 & b2 & b3 & b4 & b5 & b6 & b7 & b8 & rest & ->).
  reflexivity.
Qed.

(** ** The active-mode reader *)

Lemma read_open (fuel : nat) (self : SDS011) :
  ser_is_open self = true -> read fuel self = read_while fuel (PyInt 0) self.
Proof.
  intros Ho. unfold read, bind, is_serial_open. rewrite Ho. reflexivity.
Qed.

Lemma read_while_done (fuel : nat) (byte : loop_byte) (self : SDS011) :
  differs_from_HEAD byte = false -> read_while fuel byte self = Return None self.
Proof. intros H. destruct fuel; simpl; rewrite H; reflexivity. Qed.

Lemma read_while_step (fuel : nat) (byte : loop_byte) (self : SDS011) :
  differs_from_HEAD byte = true ->
  read_while (S fuel) byte self
  = read_iteration (read_while fuel)
      (firstn 1 (ser_in self)) (firstn 10 (skipn 1 (ser_in self)))
      (with_in (skipn 11 (ser_in self)) self).
Proof.
  intros H. simpl. rewrite H. unfold bind at 1 2, ser_read.
  replace (with_taken 10 (with_taken 1 self))
    with (with_in (skipn 11 (ser_in self)) self)
    by (unfold with_taken, with_in;
        cbn [ser_in ser_out stdout use_query_mode ser_is_open];
        rewrite skipn_skipn; reflexivity).
  reflexivity.
Qed.

(** On a 10-byte frame followed by one more byte, as [read] passes it. *)
Lemma _process_frame_11 (frame : bytes) (x : byte) (self : SDS011) :
  List.length frame = 10%nat ->
  _process_frame (frame ++ [x]) self
  = Return (if checksum_ok frame then Some (measurement_of frame) else None)
           self.
Proof.
  intros Hlen. explode frame.
  unfold _process_frame, bind, checksum_ok, measurement_of, field, slice.
  simpl. rewrite !le16_value.
  destruct (_ =? _); reflexivity.
Qed.

(** A frame that is not followed by another byte cannot be unpacked. *)
Lemma _process_frame_10 (frame : bytes) (self : SDS011) :
  List.length frame = 10%nat ->
  _process_frame frame self = Raise StructError self.
Proof. intros Hlen. explode frame. reflexivity. Qed.

Lemma _process_frame_total (data : bytes) (self : SDS011) :
  _process_frame data self <> OutOfFuel.
Proof.
  unfold _process_frame, bind.
  destruct (unpack_HHxxBBB (slice_from data 2) self) as [r s|e s|] eqn:E.
  - destruct (index data 8 s) as [d8 s'|e s'|] eqn:E8.
    + destruct r as [[[[r0 r1] r2] r3] r4].
      destruct (negb _); discriminate.
    + discriminate.
    + unfold index in E8. destruct (nth_error data 8); discriminate.
  - discriminate.
  - unfold unpack_HHxxBBB in E.
    destruct (slice_from data 2) as [|? [|? [|? [|? [|? [|? [|? [|? [|? [|? ?]]]]]]]]]];
      discriminate.
Qed.

Lemma marker_test (pending : bytes) :
  bytes_eqb (slice (firstn 10 (skipn 1 pending)) 0 1) [xc0] = true
  <-> nth_error pending 1 = Some xc0.
Proof.
  rewrite bytes_eqb_eq. unfold slice.
  destruct pending as [|b [|m pending]]; simpl; split; congruence.
Qed.

Lemma head_test (pending : bytes) :
  differs_from_HEAD (PyBytes (firstn 1 pending)) = false
  <-> nth_error pending 0 = Some xaa.
Proof.
  unfold differs_from_HEAD, HEAD. rewrite negb_false_iff, bytes_eqb_eq.
  destruct pending as [|b pending]; simpl; split; congruence.
Qed.

(** When the marker is found the iteration ends the call, by a result or by
    an exception of [_process_frame]. *)
Lemma read_iteration_marker
  (continue : loop_byte -> M (option measurement)) (byte d : bytes)
  (self : SDS011) :
  bytes_eqb (slice d 0 1) [xc0] = true ->
  read_iteration continue byte d self <> OutOfFuel.
Proof.
  intros Hm. unfold read_iteration. rewrite Hm. unfold bind at 1.
  pose proof (_process_frame_total (byte ++ d) self) as Ht.
  destruct (_process_frame (byte ++ d) self) as [data s|e s|];
    [|discriminate|contradiction].
  unfold bind, get_use_query_mode.
  destruct (is_None data && use_query_mode s); discriminate.
Qed.

Lemma read_while_leaves (pending : bytes) :
  leaves_loop pending ->
  forall (byte : loop_byte) (self : SDS011),
    ser_in self = pending ->
    exists fuel, read_while fuel byte self <> OutOfFuel.
Proof.
  induction 1 as [pending Hm|pending Hh|pending _ IH]; intros byte self Hin;
    (destruct (differs_from_HEAD byte) eqn:Hd;
     [|exists 0%nat; rewrite read_while_done by exact Hd; discriminate]).
  - exists 1%nat. rewrite read_while_step by exact Hd.
    apply read_iteration_marker. apply marker_test. congruence.
  - exists 2%nat. rewrite read_while_step by exact Hd.
    destruct (bytes_eqb (slice (firstn 10 (skipn 1 (ser_in self))) 0 1) [xc0])
      eqn:Hm.
    + apply read_iteration_marker. exact Hm.
    + unfold read_iteration. rewrite Hm.
      rewrite read_while_done; [discriminate|].
      apply head_test. congruence.
  - destruct (bytes_eqb (slice (firstn 10 (skipn 1 (ser_in self))) 0 1) [xc0])
      eqn:Hm.
    + exists 1%nat. rewrite read_while_step by exact Hd.
      apply read_iteration_marker. exact Hm.
    + destruct (IH (PyBytes (firstn 1 (ser_in self)))
                  (with_in (skipn 11 (ser_in self)) self)) as [fuel Hf].
      { rewrite <- Hin. reflexivity. }
      exists (S fuel). rewrite read_while_step by exact Hd.
      unfold read_iteration. rewrite Hm. exact Hf.
Qed.

Lemma read_while_left (fuel : nat) :
  forall (byte : loop_byte) (self : SDS011),
    differs_from_HEAD byte = true ->
    read_while fuel byte self <> OutOfFuel ->
    leaves_loop (ser_in self).
Proof.
  induction fuel as [|fuel IH]; intros byte self Hd Hr.
  - simpl in Hr. rewrite Hd in Hr. contradiction.
  - rewrite read_while_step in Hr by exact Hd.
    destruct (bytes_eqb (slice (firstn 10 (skipn 1 (ser_in self))) 0 1) [xc0])
      eqn:Hm.
    + apply leaves_marker. apply marker_test. exact Hm.
    + unfold read_iteration in Hr. rewrite Hm in Hr.
      destruct (differs_from_HEAD (PyBytes (firstn 1 (ser_in self)))) eqn:Hh.
      * apply leaves_later.
        apply (IH _ _ Hh) in Hr. exact Hr.
      * apply leaves_head. apply head_test. exact Hh.
Qed.

Lemma silence_never_leaves : ~ leaves_loop [].
Proof.
  intros H. remember (@nil byte) as pending eqn:E.
  induction H as [pending Hm|pending Hh|pending _ IH]; subst pending.
  - discriminate.
  - discriminate.
  - apply IH. reflexivity.
Qed.

(** C4, amended. On an open port [read] comes back (with a result or an
    exception) exactly when some 11-byte window of the pending bytes begins
    with 0xAA or has 0xC0 at offset 1; when the transport yields no data it
    keeps polling: no number of iterations ends the call. *)
Theorem read_returns_iff_window (self : SDS011) :
  ser_is_open self = true ->
  ((exists fuel, read fuel self <> OutOfFuel) <-> leaves_loop (ser_in self))
  /\ (ser_in self = [] -> forall fuel, read fuel self = OutOfFuel).
Proof.
  intros Ho.
  assert (Hiff : (exists fuel, read fuel self <> OutOfFuel)
                 <-> leaves_loop (ser_in self)).
  { split.
    - intros [fuel Hf]. rewrite read_open in Hf by exact Ho.
      apply (read_while_left fuel (PyInt 0) self); [reflexivity|exact Hf].
    - intros Hl.
      destruct (read_while_leaves _ Hl (PyInt 0) self eq_refl) as [fuel Hf].
      exists fuel. rewrite read_open by exact Ho. exact Hf. }
  split; [exact Hiff|].
  intros Hin fuel.
  destruct (read fuel self) as [r s|e s|] eqn:E; [| |reflexivity].
  - exfalso. apply silence_never_leaves. rewrite <- Hin. apply Hiff.
    exists fuel. rewrite E. discriminate.
  - exfalso. apply silence_never_leaves. rewrite <- Hin. apply Hiff.
    exists fuel. rewrite E. discriminate.
Qed.

Lemma read_returns_iff_window_silent :
  ((exists fuel, read fuel (driver false (frame_25_45 ++ [xaa])) <> OutOfFuel)
   <-> leaves_loop (frame_25_45 ++ [xaa]))
  /\ (forall fuel, read fuel (driver false []) = OutOfFuel).
Proof.
  split.
  - apply (proj1 (read_returns_iff_window
                    (driver false (frame_25_45 ++ [xaa])) eq_refl)).
  - apply (proj2 (read_returns_iff_window (driver false []) eq_refl)).
    reflexivity.
Defined.

(** C4 as stated fails: on a transport that yields no data, no number of
    iterations brings [read] back. *)
Lemma read_spins_on_silence :
  ~ (exists fuel, read fuel (driver false []) <> OutOfFuel).
Proof.
  intros [fuel Hf]. apply silence_never_leaves.
  apply (read_while_left fuel (PyInt 0) (driver false []));
    [reflexivity|].
  rewrite <- read_open by reflexivity. exact Hf.
Qed.

(** [read] passes over a window whose head is not 0xAA and whose second byte
    is not 0xC0, eleven bytes at a time. *)
Lemma read_while_skips_window
  (fuel : nat) (byte : loop_byte) (w tail : bytes) (self : SDS011) :
  differs_from_HEAD byte = true ->
  noise_window w = true ->
  ser_in self = w ++ tail ->
  exists byte',
    differs_from_HEAD byte' = true
    /\ read_while (S fuel) byte self = read_while fuel byte' (with_in tail self).
Proof.
  intros Hd Hw Hin.
  destruct w as [|b [|m w]]; try discriminate.
  unfold noise_window in Hw.
  apply andb_true_iff in Hw as [Hw Hm].
  apply andb_true_iff in Hw as [Hlen Hb].
  apply Nat.eqb_eq in Hlen.
  exists (PyBytes [b]). split.
  - unfold differs_from_HEAD, HEAD.
    rewrite bytes_eqb_neq; [reflexivity|].
    intros E. injection E as ->. discriminate.
  - rewrite read_while_step by exact Hd. rewrite Hin.
    replace (skipn 11 ((b :: m :: w) ++ tail)) with tail
      by (rewrite skipn_app, skipn_all2, Hlen by lia; reflexivity).
    unfold read_iteration.
    rewrite bytes_eqb_neq; [reflexivity|].
    unfold slice. simpl. intros E. injection E as ->. discriminate.
Qed.

Lemma read_while_on_frame
  (fuel : nat) (prev : loop_byte) (frame rest : bytes) (x : byte)
  (self : SDS011) :
  differs_from_HEAD prev = true ->
  List.length frame = 10%nat ->
  nth_error frame 1 = Some xc0 ->
  checksum_ok frame = true ->
  ser_in self = frame ++ x :: rest ->
  read_while (S fuel) prev self
  = Return (Some (measurement_of frame)) (with_in rest self).
Proof.
  intros Hd Hlen Hm Hc Hin.
  rewrite read_while_step by exact Hd. rewrite Hin.
  pose proof (_process_frame_11 frame x (with_in rest self) Hlen) as Hp.
  rewrite Hc in Hp.
  explode frame. injection Hm as ->.
  unfold read_iteration, slice. simpl firstn. simpl skipn.
  rewrite bytes_eqb_refl. unfold bind at 1.
  simpl app in *. rewrite Hp. reflexivity.
Qed.

(** C2, amended. [read] takes one byte and then always ten more, so it walks
    the stream in windows of eleven bytes. After any number of whole windows
    of noise (head not 0xAA, second byte not 0xC0), a checksum-valid frame
    marked 0xC0 that is followed by at least one more byte is returned as its
    measurement, and exactly that one byte beyond the frame is consumed. *)
Theorem read_after_noise_windows
  (ws : list bytes) (frame rest : bytes) (x : byte) (self : SDS011)
  (fuel : nat) :
  ser_is_open self = true ->
  forallb noise_window ws = true ->
  List.length frame = 10%nat ->
  nth_error frame 1 = Some xc0 ->
  checksum_ok frame = true ->
  ser_in self = List.concat ws ++ frame ++ x :: rest ->
  (List.length ws < fuel)%nat ->
  read fuel self = Return (Some (measurement_of frame)) (with_in rest self).
Proof.
  intros Ho Hws Hlen Hm Hc Hin Hfuel.
  rewrite read_open by exact Ho.
  assert (Hd : differs_from_HEAD (PyInt 0) = true) by reflexivity.
  revert Hd Hin Hfuel. generalize (PyInt 0) as byte.
  clear Ho. revert self fuel.
  induction ws as [|w ws IH]; intros self fuel byte Hd Hin Hfuel.
  - destruct fuel as [|fuel]; [simpl in Hfuel; lia|].
    apply (read_while_on_frame fuel byte frame rest x); assumption.
  - destruct fuel as [|fuel]; [simpl in Hfuel; lia|].
    simpl in Hws. apply andb_true_iff in Hws as [Hw Hws].
    simpl in Hin. rewrite <- app_assoc in Hin.
    destruct (read_while_skips_window fuel byte w _ self Hd Hw Hin)
      as (byte' & Hd' & ->).
    rewrite (IH Hws (with_in (List.concat ws ++ frame ++ x :: rest) self)
                fuel byte' Hd' eq_refl) by (simpl in Hfuel; lia).
    reflexivity.
Qed.

Lemma read_after_noise_windows_one :
  read 2 (driver false
            ([x00; x01; x02; x03; x04; x05; x06; x07; x08; x09; x0a]
             ++ frame_25_45 ++ [xaa; xc0]))
  = Return (Some (measurement_of frame_25_45)) (driver false [xc0]).
Proof.
  apply (read_after_noise_windows
           [[x00; x01; x02; x03; x04; x05; x06; x07; x08; x09; x0a]]
           frame_25_45 [xc0] xaa
           (driver false
              ([x00; x01; x02; x03; x04; x05; x06; x07; x08; x09; x0a]
               ++ frame_25_45 ++ [xaa; xc0])) 2);
    solve [reflexivity | simpl; lia].
Defined.

(** C2 as stated fails: after one byte of noise the frame is never found;
    a frame with nothing after it raises [struct.error]; and when a byte
    follows the frame, that byte is consumed with it. *)
Lemma read_misses_frame_after_one_byte :
  (forall fuel, read fuel (driver false (x00 :: frame_25_45)) = OutOfFuel)
  /\ (forall fuel,
        read (S fuel) (driver false frame_25_45)
        = Raise StructError (driver false []))
  /\ read 1 (driver false (frame_25_45 ++ [xaa]))
     = Return (Some (25%float, 45%float)) (driver false []).
Proof.
  split; [|split].
  - intros fuel.
    destruct (read fuel (driver false (x00 :: frame_25_45))) as [r s|e s|] eqn:E;
      [| |reflexivity]; exfalso.
    all: rewrite read_open in E by reflexivity.
    all: assert (Hl : leaves_loop (x00 :: frame_25_45))
      by (apply (read_while_left fuel (PyInt 0) (driver false (x00 :: frame_25_45)));
          [reflexivity|rewrite E; discriminate]).
    all: inversion Hl as [p H|p H|p H]; subst; try discriminate.
    all: apply silence_never_leaves; exact H.
  - intros fuel. reflexivity.
  - vm_compute. reflexivity.
Qed.

(** ** The cached mode *)

Lemma keeps_mode_weaken {A} (m : M A) : keeps_mode m -> keeps_mode_if_back m.
Proof.
  intros H s s' Hf. destruct (H s) as (s1 & Hf1 & Hm). congruence.
Qed.

Lemma keeps_ret {A} (a : A) : keeps_mode (ret a).
Proof. intros s. exists s. split; reflexivity. Qed.

Lemma keeps_raise {A} (e : exn) : keeps_mode (@raise A e).
Proof. intros s. exists s. split; reflexivity. Qed.

Lemma keeps_bind {A B} (m : M A) (k : A -> M B) :
  keeps_mode m -> (forall a, keeps_mode (k a)) -> keeps_mode (bind m k).
Proof.
  intros Hm Hk s. unfold bind.
  destruct (Hm s) as (s1 & Hf & Hmode).
  destruct (m s) as [a s2|e s2|]; simpl in Hf; try discriminate;
    injection Hf as ->.
  - destruct (Hk a s1) as (s3 & Hf3 & Hmode3).
    exists s3. split; [exact Hf3|congruence].
  - exists s1. split; [reflexivity|exact Hmode].
Qed.

Lemma keeps_bind_if_back {A B} (m : M A) (k : A -> M B) :
  keeps_mode_if_back m -> (forall a, keeps_mode_if_back (k a)) ->
  keeps_mode_if_back (bind m k).
Proof.
  intros Hm Hk s s' Hf. unfold bind in Hf.
  destruct (m s) as [a s2|e s2|] eqn:E; simpl in Hf; try discriminate.
  - rewrite (Hk a s2 s' Hf). apply (Hm s). rewrite E. reflexivity.
  - injection Hf as <-. apply (Hm s). rewrite E. reflexivity.
Qed.

Lemma keeps_is_serial_open : keeps_mode is_serial_open.
Proof. intros s. exists s. split; reflexivity. Qed.

Lemma keeps_serial_Serial : keeps_mode serial_Serial.
Proof. intros s. eexists. split; reflexivity. Qed.

Lemma keeps_ser_write (cmd : bytes) : keeps_mode (ser_write cmd).
Proof. intros s. eexists. split; reflexivity. Qed.

Lemma keeps_ser_read (size : nat) : keeps_mode (ser_read size).
Proof. intros s. eexists. split; reflexivity. Qed.

Lemma keeps_get_use_query_mode : keeps_mode get_use_query_mode.
Proof. intros s. exists s. split; reflexivity. Qed.

Lemma keeps_print (line : string) : keeps_mode (print line).
Proof. intros s. eexists. split; reflexivity. Qed.

Lemma keeps_index (raw : bytes) (i : nat) : keeps_mode (index raw i).
Proof.
  unfold index. destruct (nth_error raw i);
    [apply keeps_ret|apply keeps_raise].
Qed.

Lemma keeps_bytes_of_int (n : Z) : keeps_mode (bytes_of_int n).
Proof.
  unfold bytes_of_int.
  destruct (_ && _); [|apply keeps_raise].
  destruct (Byte.of_N _); [apply keeps_ret|apply keeps_raise].
Qed.

Lemma keeps_unpack_B (b : bytes) : keeps_mode (unpack_B b).
Proof.
  unfold unpack_B.
  do 2 (try destruct b as [|? b]); first [apply keeps_ret|apply keeps_raise].
Qed.

Lemma keeps_unpack_HH (b : bytes) : keeps_mode (unpack_HH b).
Proof.
  unfold unpack_HH.
  do 5 (try destruct b as [|? b]); first [apply keeps_ret|apply keeps_raise].
Qed.

Lemma keeps_unpack_HHxxBBB (b : bytes) : keeps_mode (unpack_HHxxBBB b).
Proof.
  unfold unpack_HHxxBBB.
  do 10 (try destruct b as [|? b]); first [apply keeps_ret|apply keeps_raise].
Qed.

Lemma keeps__finish_cmd (cmd id1 id2 : bytes) :
  keeps_mode (_finish_cmd cmd id1 id2).
Proof.
  unfold _finish_cmd. apply keeps_bind; [apply keeps_bytes_of_int|].
  intros c. apply keeps_ret.
Qed.

Create HintDb mode.

#[local] Hint Resolve keeps_ret keeps_raise keeps_is_serial_open
  keeps_serial_Serial keeps_ser_write keeps_ser_read keeps_get_use_query_mode
  keeps_print keeps_index keeps_bytes_of_int keeps_unpack_B keeps_unpack_HH
  keeps_unpack_HHxxBBB keeps__finish_cmd : mode.

(** Takes a computation apart along its binds and branches. *)
Ltac keeps :=
  cbv zeta;
  repeat first
    [ solve [auto with mode]
    | apply keeps_bind; [|intros ?]
    | match goal with
      | |- keeps_mode (if ?b then _ else _) => destruct b
      | |- keeps_mode (match ?o with Some _ => _ | None => _ end) => destruct o
      | |- keeps_mode (let '(_, _) := ?p in _) => destruct p
      end ].

(** Reopening the port sends [set_report_mode(query=self.use_query_mode)]:
    the cached mode is written back as it is. *)
Lemma keeps_open_serial : keeps_mode open_serial.
Proof.
  intros s. unfold open_serial. simpl.
  unfold Guarded.open_serial_body, bind at 1 2 3, serial_Serial, ser_flush,
    ret, get_use_query_mode.
  unfold bind. rewrite set_report_mode_open by reflexivity.
  match goal with
  | |- context [reply_verdict ?raw ?st] =>
      destruct (reply_verdict_cases raw st)
        as [[_ E]|[[_ E]|[[_ [_ E]]|[_ [_ E]]]]]; rewrite E
  end; eexists; (split; [reflexivity|reflexivity]).
Qed.

#[local] Hint Resolve keeps_open_serial : mode.

Lemma keeps__execute (cmd : bytes) : keeps_mode (_execute cmd).
Proof. unfold _execute, Guarded._execute. keeps. Qed.

Lemma keeps__get_reply : keeps_mode _get_reply.
Proof. unfold _get_reply, Guarded._get_reply. keeps. Qed.

#[local] Hint Resolve keeps__execute keeps__get_reply : mode.

Lemma keeps_query : keeps_mode query.
Proof. unfold query. keeps. Qed.

Lemma keeps_sleep (read sleep_flag : bool) : keeps_mode (sleep read sleep_flag).
Proof. unfold sleep. keeps. Qed.

Lemma keeps_set_work_period (read : bool) (work_time : Z) :
  keeps_mode (set_work_period read work_time).
Proof. unfold set_work_period. keeps. Qed.

Lemma keeps_check_firmware_version : keeps_mode check_firmware_version.
Proof. unfold check_firmware_version. keeps. Qed.

Lemma keeps__process_frame (data : bytes) : keeps_mode (_process_frame data).
Proof.
  unfold _process_frame. keeps.
Qed.

#[local] Hint Resolve keeps__process_frame : mode.

Lemma keeps_read_while (fuel : nat) (byte : loop_byte) :
  keeps_mode_if_back (read_while fuel byte).
Proof.
  revert byte. induction fuel as [|fuel IH]; intros byte; simpl.
  - destruct (differs_from_HEAD byte).
    + intros s s' Hf. discriminate.
    + apply keeps_mode_weaken. keeps.
  - destruct (differs_from_HEAD byte); [|apply keeps_mode_weaken; keeps].
    apply keeps_bind_if_back; [apply keeps_mode_weaken; keeps|intros b].
    apply keeps_bind_if_back; [apply keeps_mode_weaken; keeps|intros d].
    destruct (bytes_eqb _ _); [apply keeps_mode_weaken; keeps|apply IH].
Qed.

Lemma keeps_read (fuel : nat) : keeps_mode_if_back (read fuel).
Proof.
  unfold read.
  apply keeps_bind_if_back; [apply keeps_mode_weaken; keeps|intros o].
  apply keeps_bind_if_back; [apply keeps_mode_weaken; keeps|intros _].
  apply keeps_read_while.
Qed.

(** [set_report_mode] always comes back with the cached mode set to its
    [query] argument. *)
Lemma set_report_mode_sets_cache (read query : bool) (self : SDS011) :
  exists s, final (set_report_mode read query self) = Some s
            /\ use_query_mode s = query.
Proof.
  unfold set_report_mode, Guarded.set_report_mode.
  unfold bind at 1, set_use_query_mode.
  match goal with
  | |- context [bind ?m ?k (with_mode query self)] =>
      assert (Hk : keeps_mode (bind m k)) by keeps;
      destruct (Hk (with_mode query self)) as (s & Hf & Hm)
  end.
  exists s. split; [exact Hf|exact Hm].
Qed.

(** ** Reply validation *)

Lemma checksum_ok_10 (raw : bytes) :
  List.length raw = 10%nat ->
  (checksum_ok raw = true
   <-> py_sum (slice raw 2 8) mod 256 = ord (nth 8 raw x00)).
Proof.
  intros Hlen. unfold checksum_ok.
  rewrite (nth_error_nth_byte raw 8) by lia.
  apply Z.eqb_eq.
Qed.

Lemma reply_verdict_full (raw : bytes) (self : SDS011) :
  (9 <= List.length raw)%nat ->
  reply_verdict raw self
  = Return (if checksum_ok raw then Some raw else None) self.
Proof.
  intros Hlen. unfold reply_verdict.
  destruct (Nat.leb_spec (List.length raw) 2); [lia|].
  destruct (Nat.leb_spec (List.length raw) 8); [lia|].
  destruct (checksum_ok raw); reflexivity.
Qed.

Lemma reply_verdict_absent (raw : bytes) (self : SDS011) :
  (List.length raw <= 2)%nat -> reply_verdict raw self = Return None self.
Proof.
  intros Hlen. unfold reply_verdict.
  destruct (Nat.leb_spec (List.length raw) 2); [reflexivity|lia].
Qed.

Lemma reply_verdict_no_data (raw : bytes) (self : SDS011) :
  (List.length raw <= 2)%nat
  \/ ((9 <= List.length raw)%nat /\ checksum_ok raw = false) ->
  reply_verdict raw self = Return None self.
Proof.
  intros [Hlen|[Hlen Hc]].
  - apply reply_verdict_absent. exact Hlen.
  - rewrite reply_verdict_full by exact Hlen. rewrite Hc. reflexivity.
Qed.

Lemma firstn_whole_reply (raw rest : bytes) :
  List.length raw = 10%nat -> firstn 10 (raw ++ rest) = raw.
Proof.
  intros Hlen. rewrite firstn_app, Hlen, firstn_all2 by lia.
  simpl. apply app_nil_r.
Qed.

(** C1, amended. For every 10-byte reply buffer, [_get_reply] returns the
    buffer iff [sum(raw[2:8]) mod 256] equals [raw[8]] and returns [None]
    otherwise; the head byte plays no part. *)
Theorem _get_reply_checks_checksum_only
  (raw rest : bytes) (self : SDS011) :
  ser_is_open self = true ->
  List.length raw = 10%nat ->
  ser_in self = raw ++ rest ->
  (returned (_get_reply self) = Some (Some raw)
   <-> py_sum (slice raw 2 8) mod 256 = ord (nth 8 raw x00))
  /\ (returned (_get_reply self) = Some None
      <-> py_sum (slice raw 2 8) mod 256 <> ord (nth 8 raw x00))
  /\ final (_get_reply self) = Some (with_in rest self).
Proof.
  intros Ho Hlen Hin. unfold _get_reply.
  rewrite _get_reply_open by exact Ho.
  replace (with_taken 10 self) with (with_in rest self)
    by (unfold with_taken, with_in; rewrite Hin, skipn_app, skipn_all2, Hlen
          by lia; reflexivity).
  rewrite Hin, firstn_whole_reply by exact Hlen.
  rewrite reply_verdict_full by lia.
  pose proof (checksum_ok_10 raw Hlen) as Hc.
  destruct (checksum_ok raw); simpl; repeat split; intros H;
    try reflexivity; try discriminate.
  - apply Hc. reflexivity.
  - exfalso. apply H, Hc. reflexivity.
  - apply Hc in H. discriminate.
  - intros E. apply Hc in E. discriminate.
Qed.

Lemma _get_reply_checks_checksum_only_frame :
  (returned (_get_reply (driver true frame_25_45)) = Some (Some frame_25_45)
   <-> py_sum (slice frame_25_45 2 8) mod 256 = ord (nth 8 frame_25_45 x00))
  /\ (returned (_get_reply (driver true frame_25_45)) = Some None
      <-> py_sum (slice frame_25_45 2 8) mod 256
          <> ord (nth 8 frame_25_45 x00))
  /\ final (_get_reply (driver true frame_25_45)) = Some (driver true []).
Proof.
  apply (_get_reply_checks_checksum_only frame_25_45 [] (driver true frame_25_45));
    reflexivity.
Defined.

(** C1 as stated fails: ten zero bytes have a wrong head and a right
    checksum; the spec's validator rejects them, [_get_reply] returns them. *)
Lemma _get_reply_accepts_wrong_head :
  nth_error (repeat x00 10) 0 <> Some xaa
  /\ FrameValidator_validate (repeat x00 10) = None
  /\ _get_reply (driver true (repeat x00 10))
     = Return (Some (repeat x00 10)) (driver true []).
Proof.
  split; [discriminate|]. split; reflexivity.
Qed.

(** ** Anomalous replies *)

(** C3, amended. When the reply is absent (at most two bytes arrive) or has
    nine or ten bytes and a wrong checksum, [_get_reply], [set_report_mode]
    and [query] return [None], [sleep] returns 0 and [set_work_period]
    returns, none of them raising. *)
Theorem no_data_on_absent_or_corrupt_reply
  (read_flag query_flag sleep_flag : bool) (work_time : Z) (self : SDS011) :
  ser_is_open self = true ->
  0 <= work_time <= 30 ->
  (List.length (firstn 10 (ser_in self)) <= 2)%nat
  \/ ((9 <= List.length (firstn 10 (ser_in self)))%nat
      /\ checksum_ok (firstn 10 (ser_in self)) = false) ->
  returned (_get_reply self) = Some None
  /\ returned (set_report_mode read_flag query_flag self) = Some None
  /\ returned (query self) = Some None
  /\ returned (sleep read_flag sleep_flag self) = Some 0
  /\ returned (set_work_period read_flag work_time self) = Some tt.
Proof.
  intros Ho Hw Hreply.
  repeat split.
  - unfold _get_reply. rewrite _get_reply_open by exact Ho.
    rewrite reply_verdict_no_data by exact Hreply. reflexivity.
  - unfold set_report_mode. rewrite set_report_mode_open by exact Ho.
    rewrite reply_verdict_no_data by exact Hreply. reflexivity.
  - rewrite query_open by exact Ho.
    rewrite reply_verdict_no_data by exact Hreply. reflexivity.
  - rewrite sleep_open by exact Ho.
    rewrite reply_verdict_no_data by exact Hreply. reflexivity.
  - rewrite set_work_period_open by assumption.
    rewrite reply_verdict_no_data by exact Hreply. reflexivity.
Qed.

Lemma no_data_on_absent_or_corrupt_reply_silent :
  returned (_get_reply (driver true [])) = Some None
  /\ returned (set_report_mode false true (driver true [])) = Some None
  /\ returned (query (driver true [])) = Some None
  /\ returned (sleep false true (driver true [])) = Some 0
  /\ returned (set_work_period false 5 (driver true [])) = Some tt.
Proof.
  apply (no_data_on_absent_or_corrupt_reply false true true 5 (driver true []));
    [reflexivity|lia|left; simpl; lia].
Defined.

(** C3 as stated fails: a reply with a wrong head and a right checksum is
    handed on as data; a reply of three bytes raises [IndexError]; and
    [check_firmware_version] raises [TypeError] when no reply arrives. *)
Lemma anomalies_not_turned_into_no_data :
  returned (query (driver true (x00 :: tl frame_25_45)))
  = Some (Some (25%float, 45%float))
  /\ raises (_get_reply (driver true [xaa; xc5; x06])) = Some IndexError
  /\ raises (check_firmware_version (driver true [])) = Some TypeError.
Proof.
  split; [vm_compute; reflexivity|]. split; reflexivity.
Qed.

(** ** The cached mode and [set_report_mode] *)

(** C5, amended. Every call of [set_report_mode] stores its [query] argument
    in the cached mode, be it a read or a write and whatever the reply; no
    other operation changes the cached mode. On an open port the call
    returns byte 4 of a reply that passes the checksum, and [None] when the
    reply is absent or fails the checksum. *)
Theorem set_report_mode_always_caches_query
  (read_flag query_flag : bool) (self : SDS011) :
  (exists s, final (set_report_mode read_flag query_flag self) = Some s
             /\ use_query_mode s = query_flag)
  /\ (ser_is_open self = true ->
      ((9 <= List.length (firstn 10 (ser_in self)))%nat ->
       checksum_ok (firstn 10 (ser_in self)) = true ->
       returned (set_report_mode read_flag query_flag self)
       = Some (Some (ord (nth 4 (firstn 10 (ser_in self)) x00))))
      /\ ((List.length (firstn 10 (ser_in self)) <= 2)%nat
          \/ ((9 <= List.length (firstn 10 (ser_in self)))%nat
              /\ checksum_ok (firstn 10 (ser_in self)) = false) ->
          returned (set_report_mode read_flag query_flag self) = Some None))
  /\ keeps_mode query
  /\ (forall r s, keeps_mode (sleep r s))
  /\ (forall r w, keeps_mode (set_work_period r w))
  /\ keeps_mode check_firmware_version
  /\ (forall fuel, keeps_mode_if_back (read fuel)).
Proof.
  split; [apply set_report_mode_sets_cache|].
  split.
  - intros Ho. unfold set_report_mode.
    rewrite set_report_mode_open by exact Ho. split.
    + intros Hlen Hc. rewrite reply_verdict_full by exact Hlen.
      rewrite Hc. reflexivity.
    + intros Hreply. rewrite reply_verdict_no_data by exact Hreply.
      reflexivity.
  - repeat split; intros.
    + apply keeps_query.
    + apply keeps_sleep.
    + apply keeps_set_work_period.
    + apply keeps_check_firmware_version.
    + apply keeps_read.
Qed.

Lemma set_report_mode_always_caches_query_read :
  (exists s,
      final (set_report_mode true true (driver false report_mode_reply)) = Some s
      /\ use_query_mode s = true)
  /\ returned (set_report_mode true true (driver false report_mode_reply))
     = Some (Some 0).
Proof.
  destruct (set_report_mode_always_caches_query
              true true (driver false report_mode_reply))
    as (Hcache & Hret & _).
  split; [exact Hcache|].
  apply (proj1 (Hret eq_refl)); [simpl; lia|reflexivity].
Defined.

(** C5 as stated fails: a read of the mode ([read=True]) that gets no reply
    turns a cached active mode into query mode. *)
Lemma read_without_reply_changes_cached_mode :
  use_query_mode (driver false []) = false
  /\ returned (set_report_mode true true (driver false [])) = Some None
  /\ option_map use_query_mode
       (final (set_report_mode true true (driver false []))) = Some true.
Proof. repeat split. Qed.

(** ** The work period *)

Lemma set_work_period_out_of_range
  (read_flag : bool) (work_time : Z) (self : SDS011) :
  ~ (0 <= work_time <= 30) ->
  set_work_period read_flag work_time self = Raise AssertionError self.
Proof.
  intros Hw. unfold set_work_period.
  replace ((work_time >=? 0) && (work_time <=? 30)) with false;
    [reflexivity|].
  symmetry. apply andb_false_iff.
  destruct (Z.geb_spec work_time 0); [right|left; reflexivity].
  apply Z.leb_gt. lia.
Qed.

Lemma work_period_command_shape (read_flag : bool) (work_time : Z) :
  0 <= work_time <= 30 ->
  List.length (work_period_command read_flag work_time) = 19%nat
  /\ nth_error (work_period_command read_flag work_time) 2 = Some x08
  /\ option_map ord (nth_error (work_period_command read_flag work_time) 4)
     = Some work_time.
Proof.
  intros Hw. unfold work_period_command.
  split; [rewrite finished_length; destruct read_flag; reflexivity|].
  split; [reflexivity|].
  destruct read_flag; simpl; rewrite byte_mod_ord, Z.mod_small by lia;
    reflexivity.
Qed.

(** C7. [set_work_period] raises [AssertionError], before anything is sent,
    for every [work_time] outside 0..30; for every [work_time] in 0..30 it
    builds the 19-byte work-period command carrying [work_time] and writes
    it to the port, and no assertion fails. *)
Theorem set_work_period_contract
  (read_flag : bool) (work_time : Z) (self : SDS011) :
  ser_is_open self = true ->
  (~ (0 <= work_time <= 30) ->
   set_work_period read_flag work_time self = Raise AssertionError self)
  /\ (0 <= work_time <= 30 ->
      exists s,
        final (set_work_period read_flag work_time self) = Some s
        /\ ser_out s
           = ser_out self ++ [work_period_command read_flag work_time]
        /\ raises (set_work_period read_flag work_time self)
           <> Some AssertionError
        /\ List.length (work_period_command read_flag work_time) = 19%nat
        /\ nth_error (work_period_command read_flag work_time) 2 = Some x08
        /\ option_map ord
             (nth_error (work_period_command read_flag work_time) 4)
           = Some work_time).
Proof.
  intros Ho. split; [apply set_work_period_out_of_range|].
  intros Hw.
  exists (with_taken 10
            (with_sent (work_period_command read_flag work_time) self)).
  rewrite set_work_period_open by assumption.
  destruct (work_period_command_shape read_flag work_time Hw)
    as (Hlen & Hid & Hdata).
  repeat split; try assumption.
  - on_reply self (work_period_command read_flag work_time).
  - on_reply self (work_period_command read_flag work_time); discriminate.
Qed.

Lemma set_work_period_contract_bounds :
  set_work_period false 35 (driver true [])
  = Raise AssertionError (driver true [])
  /\ set_work_period false (-1) (driver true [])
     = Raise AssertionError (driver true [])
  /\ (exists s,
         final (set_work_period false 30 (driver true [])) = Some s
         /\ ser_out s = [work_period_command false 30])
  /\ (exists s,
         final (set_work_period false 0 (driver true [])) = Some s
         /\ ser_out s = [work_period_command false 0]).
Proof.
  split; [|split; [|split]].
  - apply (proj1 (set_work_period_contract false 35 (driver true []) eq_refl)).
    lia.
  - apply (proj1 (set_work_period_contract false (-1) (driver true []) eq_refl)).
    lia.
  - destruct (proj2 (set_work_period_contract false 30 (driver true []) eq_refl)
                ltac:(lia)) as (s & Hf & Hout & _).
    exists s. split; [exact Hf|exact Hout].
  - destruct (proj2 (set_work_period_contract false 0 (driver true []) eq_refl)
                ltac:(lia)) as (s & Hf & Hout & _).
    exists s. split; [exact Hf|exact Hout].
Defined.

(** On a whole reply or none, [set_work_period] with an in-range
    [work_time] reads the reply and throws it away: it returns [None], with
    nothing in the result that tells a reply that passes the checksum from
    one that fails it or from no reply at all. *)
Theorem set_work_period_returns_nothing
  (read_flag : bool) (work_time : Z) (self : SDS011) :
  ser_is_open self = true ->
  0 <= work_time <= 30 ->
  ser_in self = [] \/ (10 <= List.length (ser_in self))%nat ->
  set_work_period read_flag work_time self
  = Return tt
      (with_taken 10
         (with_sent (work_period_command read_flag work_time) self)).
Proof.
  intros Ho Hw Hreply.
  rewrite set_work_period_open by assumption.
  destruct Hreply as [Hnone|Hfull].
  - rewrite Hnone. reflexivity.
  - rewrite reply_verdict_full
      by (rewrite length_firstn; lia).
    reflexivity.
Qed.

Lemma set_work_period_returns_nothing_examples :
  set_work_period false 5 (driver true [])
  = Return tt (with_sent (work_period_command false 5) (driver true []))
  /\ set_work_period false 5 (driver true frame_25_45)
     = Return tt (with_sent (work_period_command false 5) (driver true []))
  /\ set_work_period false 5 (driver true (repeat xff 10))
     = Return tt (with_sent (work_period_command false 5) (driver true [])).
Proof.
  split; [|split].
  - apply (set_work_period_returns_nothing false 5 (driver true []));
      [reflexivity|lia|left; reflexivity].
  - apply (set_work_period_returns_nothing false 5 (driver true frame_25_45));
      [reflexivity|lia|right; simpl; lia].
  - apply (set_work_period_returns_nothing false 5 (driver true (repeat xff 10)));
      [reflexivity|lia|right; simpl; lia].
Defined.

(** C10. The reply is not discarded whatever it is: on a reply cut to
    three to eight bytes (here five, with [work_time = 5]) the command is
    written, the bytes are taken, and the [raw[8]] test of [_get_reply]
    raises [IndexError] out of [set_work_period] instead of the call
    returning [None]. *)
Lemma set_work_period_raises_on_truncated_reply :
  set_work_period false 5 (driver true [xaa; xc0; xfa; x00; xc2])
  = Raise IndexError
      (with_sent (work_period_command false 5) (driver true []))
  /\ returned (set_work_period false 5 (driver true [xaa; xc0; xfa; x00; xc2]))
     = None.
Proof. split; reflexivity. Qed.

(** ** Measurements *)

Lemma measurement_of_fields (frame : bytes) :
  nth 2 frame x00 = xfa -> nth 3 frame x00 = x00 ->
  nth 4 frame x00 = xc2 -> nth 5 frame x00 = x01 ->
  measurement_of frame = (25%float, 45%float).
Proof.
  intros H2 H3 H4 H5. unfold measurement_of, field.
  rewrite H2, H3, H4, H5. vm_compute. reflexivity.
Qed.

(** C8. A checksum-valid frame decodes to its two little-endian 16-bit
    fields, each divided by 10.0, in [query] and in [_process_frame] as
    [read] calls it (the frame and the byte after it); the fields FA 00 and
    C2 01 give (25.0, 45.0). *)
Theorem frame_decodes_to_tenths
  (frame rest : bytes) (x : byte) (self : SDS011) :
  ser_is_open self = true ->
  List.length frame = 10%nat ->
  checksum_ok frame = true ->
  ser_in self = frame ++ rest ->
  returned (query self) = Some (Some (measurement_of frame))
  /\ returned (_process_frame (frame ++ [x]) self)
     = Some (Some (measurement_of frame))
  /\ measurement_of frame
     = (div10 (ord (nth 2 frame x00) + 256 * ord (nth 3 frame x00)),
        div10 (ord (nth 4 frame x00) + 256 * ord (nth 5 frame x00)))
  /\ (nth 2 frame x00 = xfa -> nth 3 frame x00 = x00 ->
      nth 4 frame x00 = xc2 -> nth 5 frame x00 = x01 ->
      measurement_of frame = (25%float, 45%float)).
Proof.
  intros Ho Hlen Hc Hin. repeat split.
  - rewrite query_open by exact Ho.
    rewrite Hin, firstn_whole_reply by exact Hlen.
    rewrite reply_verdict_full by lia. rewrite Hc. reflexivity.
  - rewrite _process_frame_11 by exact Hlen. rewrite Hc. reflexivity.
  - apply measurement_of_fields.
Qed.

Lemma frame_decodes_to_tenths_25_45 :
  returned (query (driver true frame_25_45)) = Some (Some (25%float, 45%float))
  /\ returned (_process_frame (frame_25_45 ++ [xaa]) (driver true frame_25_45))
     = Some (Some (25%float, 45%float)).
Proof.
  destruct (frame_decodes_to_tenths frame_25_45 [] xaa (driver true frame_25_45)
              eq_refl eq_refl eq_refl eq_refl) as (Hq & Hp & _ & Hv).
  rewrite (Hv eq_refl eq_refl eq_refl eq_refl) in Hq, Hp.
  split; [exact Hq|exact Hp].
Defined.

(** ** Sleep *)



(** ** The constructor *)

(** The constructor leaves an open port, the requested mode cached and the
    report-mode command written, whatever the device answers. *)
Lemma constructed_driver (query_flag : bool) (device : bytes) :
  exists s,
    final (__init__ query_flag device) = Some s
    /\ ser_is_open s = true
    /\ use_query_mode s = query_flag
    /\ ser_out s = [report_mode_command false query_flag].
Proof.
  unfold __init__, bind at 1 2 3, serial_Serial, ser_flush, ret.
  unfold bind, set_report_mode.
  rewrite set_report_mode_open by reflexivity.
  match goal with
  | |- context [reply_verdict ?raw ?st] =>
      destruct (reply_verdict_cases raw st)
        as [[_ E]|[[_ E]|[[_ [_ E]]|[_ [_ E]]]]]; rewrite E
  end; eexists; repeat split.
Qed.

(** * Further properties of the driver *)

(** ** What the reply read leaves behind *)

Lemma reply_verdict_final (raw : bytes) (self : SDS011) :
  final (reply_verdict raw self) = Some self.
Proof.
  destruct (reply_verdict_cases raw self)
    as [[_ E]|[[_ E]|[[_ [_ E]]|[_ [_ E]]]]]; rewrite E; reflexivity.
Qed.

Lemma reply_verdict_short (raw : bytes) (self : SDS011) :
  (3 <= List.length raw <= 8)%nat ->
  reply_verdict raw self = Raise IndexError self.
Proof.
  intros Hlen. unfold reply_verdict.
  destruct (Nat.leb_spec (List.length raw) 2); [lia|].
  destruct (Nat.leb_spec (List.length raw) 8); [reflexivity|lia].
Qed.

Lemma reply_verdict_not_short (raw : bytes) (self : SDS011) :
  (List.length raw <= 2)%nat \/ (9 <= List.length raw)%nat ->
  exists r, reply_verdict raw self = Return r self.
Proof.
  intros [Hlen|Hlen].
  - exists None. apply reply_verdict_absent. exact Hlen.
  - eexists. apply reply_verdict_full. exact Hlen.
Qed.

Lemma bind_finish {A} (cmd : bytes) (k : bytes -> M A) (self : SDS011) :
  bind (_finish_cmd cmd [xff] [xff]) k self = k (finished cmd) self.
Proof. unfold bind. rewrite _finish_cmd_returns. reflexivity. Qed.

Lemma exchanged_taken_sent (cmd : bytes) (self : SDS011) :
  exchanged cmd self (with_taken 10 (with_sent cmd self)).
Proof. repeat split. Qed.

(** X1. Every request/reply operation on an open port writes exactly one
    command and takes ten bytes off the input, also when it raises. *)
Theorem one_command_one_reply
  (r f : bool) (work_time : Z) (self : SDS011) :
  ser_is_open self = true ->
  0 <= work_time <= 30 ->
  (exists s, final (set_report_mode r f self) = Some s
             /\ exchanged (report_mode_command r f) self s)
  /\ (exists s, final (query self) = Some s
                /\ exchanged query_command self s)
  /\ (exists s, final (sleep r f self) = Some s
                /\ exchanged (sleep_command r f) self s)
  /\ (exists s, final (set_work_period r work_time self) = Some s
                /\ exchanged (work_period_command r work_time) self s)
  /\ (exists s, final (check_firmware_version self) = Some s
                /\ exchanged firmware_command self s).
Proof.
  intros Ho Hw. repeat apply conj.
  - unfold set_report_mode. rewrite set_report_mode_open by exact Ho.
    match goal with
    | |- context [reply_verdict ?raw ?st] =>
        destruct (reply_verdict_cases raw st)
          as [[_ E]|[[_ E]|[[_ [_ E]]|[_ [_ E]]]]]; rewrite E
    end; eexists; (split; [reflexivity|repeat split]).
  - rewrite query_open by exact Ho.
    destruct (reply_verdict_cases (firstn 10 (ser_in self))
                (with_taken 10 (with_sent query_command self)))
      as [[_ E]|[[_ E]|[[_ [_ E]]|[_ [_ E]]]]]; rewrite E;
      eexists; (split; [reflexivity|]);
      try (destruct (use_query_mode _)); repeat split.
  - rewrite sleep_open by exact Ho.
    destruct (reply_verdict_cases (firstn 10 (ser_in self))
                (with_taken 10 (with_sent (sleep_command r f) self)))
      as [[_ E]|[[_ E]|[[_ [_ E]]|[_ [_ E]]]]]; rewrite E;
      eexists; (split; [reflexivity|repeat split]).
  - rewrite set_work_period_open by assumption.
    destruct (reply_verdict_cases (firstn 10 (ser_in self))
                (with_taken 10
                   (with_sent (work_period_command r work_time) self)))
      as [[_ E]|[[_ E]|[[_ [_ E]]|[_ [_ E]]]]]; rewrite E;
      eexists; (split; [reflexivity|repeat split]).
  - rewrite check_firmware_version_open by exact Ho.
    destruct (reply_verdict_cases (firstn 10 (ser_in self))
                (with_taken 10 (with_sent firmware_command self)))
      as [[_ E]|[[_ E]|[[_ [_ E]]|[_ [_ E]]]]]; rewrite E;
      eexists; (split; [reflexivity|repeat split]).
Qed.

Lemma one_command_one_reply_short :
  (exists s, final (set_report_mode true false (driver true [xaa; xc5; x02]))
             = Some s
             /\ exchanged (report_mode_command true false)
                          (driver true [xaa; xc5; x02]) s)
  /\ (exists s, final (query (driver true [xaa; xc5; x02])) = Some s
                /\ exchanged query_command (driver true [xaa; xc5; x02]) s)
  /\ (exists s, final (sleep true false (driver true [xaa; xc5; x02])) = Some s
                /\ exchanged (sleep_command true false)
                             (driver true [xaa; xc5; x02]) s)
  /\ (exists s, final (set_work_period true 7 (driver true [xaa; xc5; x02]))
                = Some s
                /\ exchanged (work_period_command true 7)
                             (driver true [xaa; xc5; x02]) s)
  /\ (exists s, final (check_firmware_version (driver true [xaa; xc5; x02]))
                = Some s
                /\ exchanged firmware_command (driver true [xaa; xc5; x02]) s).
Proof.
  apply (one_command_one_reply true false 7 (driver true [xaa; xc5; x02]));
    [reflexivity|lia].
Defined.

(** ** Short replies *)

(** X2. A reply of three to eight bytes is not turned into "no data": the
    test of [raw[8]] raises [IndexError], and the exception leaves every
    operation that reads a reply. *)
Theorem short_reply_raises_IndexError
  (r f : bool) (work_time : Z) (self : SDS011) :
  ser_is_open self = true ->
  0 <= work_time <= 30 ->
  (3 <= List.length (ser_in self) <= 8)%nat ->
  raises (_get_reply self) = Some IndexError
  /\ raises (set_report_mode r f self) = Some IndexError
  /\ raises (query self) = Some IndexError
  /\ raises (sleep r f self) = Some IndexError
  /\ raises (set_work_period r work_time self) = Some IndexError
  /\ raises (check_firmware_version self) = Some IndexError.
Proof.
  intros Ho Hw Hlen.
  assert (Hraw : (3 <= List.length (firstn 10 (ser_in self)) <= 8)%nat)
    by (rewrite length_firstn; lia).
  repeat split.
  - unfold _get_reply. rewrite _get_reply_open by exact Ho.
    rewrite reply_verdict_short by exact Hraw. reflexivity.
  - unfold set_report_mode. rewrite set_report_mode_open by exact Ho.
    rewrite reply_verdict_short by exact Hraw. reflexivity.
  - rewrite query_open by exact Ho.
    rewrite reply_verdict_short by exact Hraw. reflexivity.
  - rewrite sleep_open by exact Ho.
    rewrite reply_verdict_short by exact Hraw. reflexivity.
  - rewrite set_work_period_open by assumption.
    rewrite reply_verdict_short by exact Hraw. reflexivity.
  - rewrite check_firmware_version_open by exact Ho.
    rewrite reply_verdict_short by exact Hraw. reflexivity.
Qed.

Lemma short_reply_raises_IndexError_five_bytes :
  raises (_get_reply (driver true [xaa; xc0; xfa; x00; xc2])) = Some IndexError
  /\ raises (set_report_mode false true (driver true [xaa; xc0; xfa; x00; xc2]))
     = Some IndexError
  /\ raises (query (driver true [xaa; xc0; xfa; x00; xc2])) = Some IndexError
  /\ raises (sleep false true (driver true [xaa; xc0; xfa; x00; xc2]))
     = Some IndexError
  /\ raises (set_work_period false 3 (driver true [xaa; xc0; xfa; x00; xc2]))
     = Some IndexError
  /\ raises (check_firmware_version (driver true [xaa; xc0; xfa; x00; xc2]))
     = Some IndexError.
Proof.
  apply (short_reply_raises_IndexError false true 3
           (driver true [xaa; xc0; xfa; x00; xc2]));
    [reflexivity|lia|simpl; lia].
Defined.

(** ** The firmware version *)

(** X3. On a reply that passes the checksum [check_firmware_version] returns
    bytes 2, 3 and 4 in decimal, joined by dashes, with no calendar check;
    when the reply is absent or fails the checksum it raises [TypeError]
    (there is no test for [None]). *)
Theorem check_firmware_version_result (self : SDS011) :
  ser_is_open self = true ->
  ((9 <= List.length (firstn 10 (ser_in self)))%nat ->
   checksum_ok (firstn 10 (ser_in self)) = true ->
   returned (check_firmware_version self)
   = Some (firmware_string (firstn 10 (ser_in self))))
  /\ ((List.length (firstn 10 (ser_in self)) <= 2)%nat
      \/ ((9 <= List.length (firstn 10 (ser_in self)))%nat
          /\ checksum_ok (firstn 10 (ser_in self)) = false) ->
      raises (check_firmware_version self) = Some TypeError).
Proof.
  intros Ho. rewrite check_firmware_version_open by exact Ho. split.
  - intros Hlen Hc. rewrite reply_verdict_full by exact Hlen.
    rewrite Hc. reflexivity.
  - intros Hreply. rewrite reply_verdict_no_data by exact Hreply.
    reflexivity.
Qed.

Lemma check_firmware_version_result_7_18_11 :
  returned (check_firmware_version (driver true firmware_reply))
  = Some "7-18-11"%string
  /\ raises (check_firmware_version (driver true [])) = Some TypeError
  /\ raises (check_firmware_version (driver true (repeat xff 10)))
     = Some TypeError.
Proof.
  split; [|split].
  - exact (proj1 (check_firmware_version_result (driver true firmware_reply)
                    eq_refl)
                  ltac:(simpl; lia) eq_refl).
  - apply (proj2 (check_firmware_version_result (driver true []) eq_refl)).
    left. simpl. lia.
  - apply (proj2 (check_firmware_version_result
                    (driver true (repeat xff 10)) eq_refl)).
    right. split; [simpl; lia|reflexivity].
Defined.

(** ** The advisory of [query] *)

(** X4. When [query] gets no data it prints its advisory exactly when the
    cached mode is active reporting, and returns [None] either way; with a
    reply that passes the checksum it prints nothing. *)
Theorem query_advisory (self : SDS011) :
  ser_is_open self = true ->
  ((List.length (firstn 10 (ser_in self)) <= 2)%nat
   \/ ((9 <= List.length (firstn 10 (ser_in self)))%nat
       /\ checksum_ok (firstn 10 (ser_in self)) = false) ->
   returned (query self) = Some None
   /\ option_map stdout (final (query self))
      = Some (stdout self
              ++ if use_query_mode self then []
                 else ["SDS011 is in active reporting mode, use read()"%string]))
  /\ ((9 <= List.length (firstn 10 (ser_in self)))%nat ->
      checksum_ok (firstn 10 (ser_in self)) = true ->
      option_map stdout (final (query self)) = Some (stdout self)).
Proof.
  intros Ho. rewrite query_open by exact Ho. split.
  - intros Hreply. rewrite reply_verdict_no_data by exact Hreply.
    split; [reflexivity|].
    simpl. destruct (use_query_mode self); simpl;
      [rewrite app_nil_r|]; reflexivity.
  - intros Hlen Hc. rewrite reply_verdict_full by exact Hlen.
    rewrite Hc. reflexivity.
Qed.

Lemma query_advisory_active :
  returned (query (driver false [])) = Some None
  /\ option_map stdout (final (query (driver false [])))
     = Some ["SDS011 is in active reporting mode, use read()"%string].
Proof.
  apply (proj1 (query_advisory (driver false []) eq_refl)).
  left. simpl. lia.
Defined.

(** ** Reopening a closed port *)

Lemma reopened_open (self : SDS011) : ser_is_open (reopened self) = true.
Proof. reflexivity. Qed.

Lemma open_serial_result (self : SDS011) :
  open_serial self
  = match reply_verdict (firstn 10 (ser_in self)) (reopened self) with
    | Return _ s => Return tt s
    | Raise e s => Raise e s
    | OutOfFuel => OutOfFuel
    end.
Proof.
  unfold open_serial, open_serial_upto.
  unfold Guarded.open_serial_body, bind at 1 2 3, serial_Serial, ser_flush,
    ret, get_use_query_mode.
  unfold bind. rewrite set_report_mode_open by reflexivity.
  change (with_taken 10
            (with_sent
               (report_mode_command false (use_query_mode (with_open true self)))
               (with_mode (use_query_mode (with_open true self))
                          (with_open true self))))
    with (reopened self).
  change (ser_in (with_open true self)) with (ser_in self).
  destruct (reply_verdict_cases (firstn 10 (ser_in self)) (reopened self))
    as [[_ E]|[[_ E]|[[_ [_ E]]|[_ [_ E]]]]]; rewrite E; reflexivity.
Qed.

Lemma open_serial_returns (self : SDS011) :
  (List.length (firstn 10 (ser_in self)) <= 2)%nat
  \/ (9 <= List.length (firstn 10 (ser_in self)))%nat ->
  open_serial self = Return tt (reopened self).
Proof.
  intros Hreply. rewrite open_serial_result.
  destruct (reply_verdict_not_short _ (reopened self) Hreply) as [r ->].
  reflexivity.
Qed.

Lemma open_serial_raises (self : SDS011) :
  (3 <= List.length (firstn 10 (ser_in self)) <= 8)%nat ->
  open_serial self = Raise IndexError (reopened self).
Proof.
  intros Hreply. rewrite open_serial_result.
  rewrite reply_verdict_short by exact Hreply. reflexivity.
Qed.

(** X5. On a closed port [_execute] reopens first: the report-mode write
    for the cached mode goes out and one reply is read before the command
    is written; when that reply has three to eight bytes the [IndexError]
    escapes and the command is never written. *)
Theorem _execute_on_closed_port (cmd : bytes) (self : SDS011) :
  ser_is_open self = false ->
  ((List.length (firstn 10 (ser_in self)) <= 2)%nat
   \/ (9 <= List.length (firstn 10 (ser_in self)))%nat ->
   _execute cmd self = Return tt (with_sent cmd (reopened self)))
  /\ ((3 <= List.length (firstn 10 (ser_in self)) <= 8)%nat ->
      _execute cmd self = Raise IndexError (reopened self))
  /\ ser_out (reopened self)
     = ser_out self ++ [report_mode_command false (use_query_mode self)]
  /\ use_query_mode (reopened self) = use_query_mode self.
Proof.
  intros Hc.
  assert (E : _execute cmd self
              = bind open_serial (fun _ => ser_write cmd) self).
  { unfold _execute, Guarded._execute, bind at 1, is_serial_open.
    rewrite Hc. reflexivity. }
  repeat split; intros Hreply; rewrite E; unfold bind.
  - rewrite open_serial_returns by exact Hreply. reflexivity.
  - rewrite open_serial_raises by exact Hreply. reflexivity.
Qed.

Lemma _execute_on_closed_port_query :
  _execute query_command (with_open false (driver true frame_25_45))
  = Return tt
      (mkSDS011 true true []
                [report_mode_command false true; query_command] []).
Proof.
  apply (proj1 (_execute_on_closed_port query_command
                  (with_open false (driver true frame_25_45)) eq_refl)).
  right. simpl. lia.
Defined.

Lemma _execute_reopened (cmd : bytes) (self : SDS011) :
  ser_is_open self = false ->
  (List.length (firstn 10 (ser_in self)) <= 2)%nat
  \/ (9 <= List.length (firstn 10 (ser_in self)))%nat ->
  _execute cmd self = _execute cmd (reopened self).
Proof.
  intros Hc Hreply.
  unfold _execute at 2. rewrite _execute_open by reflexivity.
  unfold _execute, Guarded._execute, bind, is_serial_open.
  rewrite Hc. simpl negb. cbv iota.
  rewrite open_serial_returns by exact Hreply. reflexivity.
Qed.

Lemma bind_execute_reopened {A}
  (cmd : bytes) (k : unit -> M A) (self : SDS011) :
  ser_is_open self = false ->
  (List.length (firstn 10 (ser_in self)) <= 2)%nat
  \/ (9 <= List.length (firstn 10 (ser_in self)))%nat ->
  bind (_execute cmd) k self = bind (_execute cmd) k (reopened self).
Proof.
  intros Hc Hreply. unfold bind.
  rewrite (_execute_reopened cmd self Hc Hreply). reflexivity.
Qed.

Lemma guard_reopened {A} (k : M A) (self : SDS011) :
  ser_is_open self = false ->
  (List.length (firstn 10 (ser_in self)) <= 2)%nat
  \/ (9 <= List.length (firstn 10 (ser_in self)))%nat ->
  (o <- is_serial_open ;; (if negb o then open_serial else ret tt) ;;; k) self
  = (o <- is_serial_open ;; (if negb o then open_serial else ret tt) ;;; k)
      (reopened self).
Proof.
  intros Hc Hreply. unfold bind, is_serial_open.
  rewrite Hc, reopened_open. simpl negb. cbv iota.
  rewrite open_serial_returns by exact Hreply. reflexivity.
Qed.

Lemma bind_bytes_of_int {A} (n : Z) (k : bytes -> M A) (self : SDS011) :
  0 <= n < 256 -> bind (bytes_of_int n) k self = k [byte_mod n] self.
Proof.
  intros Hn. unfold bind. rewrite bytes_of_int_small by exact Hn.
  reflexivity.
Qed.

(** X6. A closed port is repaired before the operation runs: when the reply
    to the reopening command is not a short one, [query], [sleep],
    [set_work_period], [check_firmware_version], [read] and [_get_reply]
    behave on the closed port exactly as on the reopened one. *)
Theorem closed_port_is_repaired
  (r f : bool) (work_time : Z) (fuel : nat) (self : SDS011) :
  ser_is_open self = false ->
  (List.length (firstn 10 (ser_in self)) <= 2)%nat
  \/ (9 <= List.length (firstn 10 (ser_in self)))%nat ->
  0 <= work_time <= 30 ->
  query self = query (reopened self)
  /\ sleep r f self = sleep r f (reopened self)
  /\ set_work_period r work_time self
     = set_work_period r work_time (reopened self)
  /\ check_firmware_version self = check_firmware_version (reopened self)
  /\ read fuel self = read fuel (reopened self)
  /\ _get_reply self = _get_reply (reopened self).
Proof.
  intros Hc Hreply Hw. repeat split.
  - unfold query. rewrite !bind_finish.
    apply bind_execute_reopened; assumption.
  - unfold sleep. rewrite !bind_finish.
    apply bind_execute_reopened; assumption.
  - unfold set_work_period.
    replace ((work_time >=? 0) && (work_time <=? 30)) with true
      by (symmetry; apply andb_true_iff; split;
          [apply Z.geb_le|apply Z.leb_le]; lia).
    cbv beta iota delta [negb].
    rewrite !bind_bytes_of_int by lia. rewrite !bind_finish.
    apply bind_execute_reopened; assumption.
  - unfold check_firmware_version. rewrite !bind_finish.
    apply bind_execute_reopened; assumption.
  - unfold read. apply guard_reopened; assumption.
  - unfold _get_reply, Guarded._get_reply. apply guard_reopened; assumption.
Qed.

Lemma closed_port_is_repaired_query :
  query (with_open false (driver true (report_mode_reply ++ frame_25_45)))
  = Return (Some (25%float, 45%float))
      (mkSDS011 true true []
                [report_mode_command false true; query_command] []).
Proof.
  rewrite (proj1 (closed_port_is_repaired false false 0 0
                    (with_open false
                       (driver true (report_mode_reply ++ frame_25_45)))
                    eq_refl ltac:(right; simpl; lia) ltac:(lia))).
  vm_compute. reflexivity.
Defined.

Lemma set_report_mode_reopened (r f : bool) (self : SDS011) :
  ser_is_open self = false ->
  (List.length (firstn 10 (ser_in self)) <= 2)%nat
  \/ (9 <= List.length (firstn 10 (ser_in self)))%nat ->
  set_report_mode r f self = set_report_mode r f (reopened (with_mode f self)).
Proof.
  intros Hc Hreply.
  assert (U : forall s,
             set_report_mode r f s
             = bind (_execute (report_mode_command r f))
                 (fun _ =>
                    raw <- _get_reply ;;
                    match raw with
                    | None => ret None
                    | Some raw =>
                        data <- unpack_B (slice raw 4 5) ;;
                        ret (Some data)
                    end)
                 (with_mode f s)).
  { intros s. unfold set_report_mode, Guarded.set_report_mode.
    unfold bind at 1, set_use_query_mode. rewrite bind_finish.
    reflexivity. }
  rewrite (U self), (U (reopened (with_mode f self))).
  change (with_mode f (reopened (with_mode f self)))
    with (reopened (with_mode f self)).
  apply bind_execute_reopened; assumption.
Qed.

Lemma _execute_closed_short (cmd : bytes) (self : SDS011) :
  ser_is_open self = false ->
  (3 <= List.length (firstn 10 (ser_in self)) <= 8)%nat ->
  _execute cmd self = Raise IndexError (reopened self).
Proof.
  intros Hc Hshort.
  unfold _execute, Guarded._execute, bind, is_serial_open.
  rewrite Hc. simpl negb. cbv iota.
  rewrite open_serial_raises by exact Hshort. reflexivity.
Qed.

Lemma set_report_mode_closed_short (r f : bool) (self : SDS011) :
  ser_is_open self = false ->
  (3 <= List.length (firstn 10 (ser_in self)) <= 8)%nat ->
  set_report_mode r f self = Raise IndexError (reopened (with_mode f self)).
Proof.
  intros Hc Hshort.
  unfold set_report_mode, Guarded.set_report_mode.
  unfold bind at 1, set_use_query_mode. rewrite bind_finish.
  unfold bind at 1.
  change (Guarded._execute open_serial) with _execute.
  rewrite (_execute_closed_short _ (with_mode f self)) by assumption.
  reflexivity.
Qed.

(** X7. On a closed port [set_report_mode] stores [query] in the cache
    before it reopens, so the reopening sends the write of that new mode
    first, also when the call itself is a read. When the reply to that
    write is not a short one, two commands go out and two replies are
    taken; when it has three to eight bytes, the [IndexError] leaves the
    call after the write alone has gone out, the cache already changed. *)
Theorem set_report_mode_on_closed_port (r f : bool) (self : SDS011) :
  ser_is_open self = false ->
  ((List.length (firstn 10 (ser_in self)) <= 2)%nat
   \/ (9 <= List.length (firstn 10 (ser_in self)))%nat ->
   exists s,
     final (set_report_mode r f self) = Some s
     /\ ser_out s
        = ser_out self ++ [report_mode_command false f; report_mode_command r f]
     /\ ser_in s = skipn 20 (ser_in self)
     /\ use_query_mode s = f
     /\ ser_is_open s = true)
  /\ ((3 <= List.length (firstn 10 (ser_in self)) <= 8)%nat ->
      set_report_mode r f self
      = Raise IndexError
          (mkSDS011 f true (skipn 10 (ser_in self))
                    (ser_out self ++ [report_mode_command false f])
                    (stdout self))).
Proof.
  intros Hc. split.
  - intros Hreply.
    rewrite set_report_mode_reopened by assumption.
    unfold set_report_mode. rewrite set_report_mode_open by reflexivity.
    match goal with
    | |- context [reply_verdict ?raw ?st] =>
        exists st;
        destruct (reply_verdict_cases raw st)
          as [[_ E]|[[_ E]|[[_ [_ E]]|[_ [_ E]]]]]; rewrite E
    end.
    all: split; [reflexivity|].
    all: split; [simpl; rewrite <- app_assoc; reflexivity|].
    all: split; [unfold reopened, with_taken, with_sent, with_mode, with_open;
                 cbn [ser_in]; rewrite skipn_skipn; reflexivity|].
    all: split; reflexivity.
  - intros Hshort.
    rewrite set_report_mode_closed_short by assumption. reflexivity.
Qed.

Lemma set_report_mode_on_closed_port_read :
  (exists s,
      final (set_report_mode true false (with_open false (driver true [])))
      = Some s
      /\ ser_out s
         = [report_mode_command false false; report_mode_command true false]
      /\ ser_in s = []
      /\ use_query_mode s = false
      /\ ser_is_open s = true)
  /\ set_report_mode true false
       (with_open false (driver true [xaa; xc5; x02]))
     = Raise IndexError
         (mkSDS011 false true [] [report_mode_command false false] []).
Proof.
  split.
  - apply (proj1 (set_report_mode_on_closed_port true false
                    (with_open false (driver true [])) eq_refl)).
    left. simpl. lia.
  - apply (proj2 (set_report_mode_on_closed_port true false
                    (with_open false (driver true [xaa; xc5; x02])) eq_refl)).
    simpl. lia.
Defined.

(** ** The destructor *)

Lemma __del___open (self : SDS011) :
  ser_is_open self = true -> __del__ self = Return tt (with_open false self).
Proof.
  intros Ho. unfold __del__, try_except, bind, is_serial_open.
  rewrite Ho. reflexivity.
Qed.

Lemma __del___closed (self : SDS011) :
  ser_is_open self = false ->
  __del__ self
  = match reply_verdict (firstn 10 (ser_in self)) (reopened self) with
    | Return _ s =>
        match reply_verdict (firstn 10 (ser_in s))
                (with_taken 10 (with_sent (sleep_command false true) s)) with
        | Return _ s' => Return tt (with_open false s')
        | Raise _ s' =>
            Return tt (with_line "Exception when destructing SDS011 class" s')
        | OutOfFuel => OutOfFuel
        end
    | Raise _ s =>
        Return tt (with_line "Exception when destructing SDS011 class" s)
    | OutOfFuel => OutOfFuel
    end.
Proof.
  intros Hc. unfold __del__, try_except, bind at 1, is_serial_open.
  rewrite Hc. simpl negb. cbv iota.
  unfold bind at 1 2. rewrite open_serial_result.
  destruct (reply_verdict_cases (firstn 10 (ser_in self)) (reopened self))
    as [[_ E]|[[_ E]|[[_ [_ E]]|[_ [_ E]]]]]; rewrite E; try reflexivity.
  all: unfold bind at 1; rewrite sleep_open by reflexivity.
  all: match goal with
       | |- context [reply_verdict ?raw ?st] =>
           destruct (reply_verdict_cases raw st)
             as [[_ E']|[[_ E']|[[_ [_ E']]|[_ [_ E']]]]]
       end.
  all: change (ser_in (with_sent (sleep_command false true) (reopened self)))
         with (ser_in (reopened self)) in *.
  all: rewrite E'; reflexivity.
Qed.

(** X8. The destructor never lets an exception out. On an open port it
    only closes the port: nothing is written, so the sensor is not put to
    sleep, and nothing is read or printed. *)
Theorem __del___swallows_exceptions (self : SDS011) :
  (exists s, __del__ self = Return tt s)
  /\ (ser_is_open self = true ->
      __del__ self = Return tt (with_open false self)).
Proof.
  split; [|apply __del___open].
  destruct (ser_is_open self) eqn:Ho.
  - eexists. apply __del___open. exact Ho.
  - rewrite __del___closed by exact Ho.
    destruct (reply_verdict_cases (firstn 10 (ser_in self)) (reopened self))
      as [[_ E]|[[_ E]|[[_ [_ E]]|[_ [_ E]]]]]; rewrite E;
      try (eexists; reflexivity).
    all: match goal with
         | |- context [reply_verdict ?raw ?st] =>
             destruct (reply_verdict_cases raw st)
               as [[_ E']|[[_ E']|[[_ [_ E']]|[_ [_ E']]]]]; rewrite E'
         end; eexists; reflexivity.
Qed.

Lemma __del___swallows_exceptions_open :
  __del__ (driver true frame_25_45)
  = Return tt (with_open false (driver true frame_25_45)).
Proof.
  apply (proj2 (__del___swallows_exceptions (driver true frame_25_45))).
  reflexivity.
Defined.

(** X9. On a closed port the destructor reopens it, sends the report-mode
    write and the sleep command and closes the port again; when the reply
    to either command has three to eight bytes, the [IndexError] is caught,
    a notice is printed and the port is left open. *)
Theorem __del___on_closed_port (self : SDS011) :
  ser_is_open self = false ->
  (((List.length (firstn 10 (ser_in self)) <= 2)%nat
    \/ (9 <= List.length (firstn 10 (ser_in self)))%nat) ->
   ((List.length (firstn 10 (skipn 10 (ser_in self))) <= 2)%nat
    \/ (9 <= List.length (firstn 10 (skipn 10 (ser_in self))))%nat) ->
   __del__ self
   = Return tt
       (mkSDS011 (use_query_mode self) false (skipn 20 (ser_in self))
          (ser_out self
           ++ [report_mode_command false (use_query_mode self);
               sleep_command false true])
          (stdout self)))
  /\ ((3 <= List.length (firstn 10 (ser_in self)) <= 8)%nat ->
      __del__ self
      = Return tt
          (mkSDS011 (use_query_mode self) true (skipn 10 (ser_in self))
             (ser_out self
              ++ [report_mode_command false (use_query_mode self)])
             (stdout self ++ ["Exception when destructing SDS011 class"%string])))
  /\ (((List.length (firstn 10 (ser_in self)) <= 2)%nat
       \/ (9 <= List.length (firstn 10 (ser_in self)))%nat) ->
      (3 <= List.length (firstn 10 (skipn 10 (ser_in self))) <= 8)%nat ->
      __del__ self
      = Return tt
          (mkSDS011 (use_query_mode self) true (skipn 20 (ser_in self))
             (ser_out self
              ++ [report_mode_command false (use_query_mode self);
                  sleep_command false true])
             (stdout self ++ ["Exception when destructing SDS011 class"%string]))).
Proof.
  intros Hc. rewrite __del___closed by exact Hc.
  assert (Hout : forall a b : bytes,
             (ser_out self ++ [a]) ++ [b] = ser_out self ++ [a; b])
    by (intros; rewrite <- app_assoc; reflexivity).
  repeat split.
  - intros H1 H2.
    destruct (reply_verdict_not_short _ (reopened self) H1) as [r1 ->].
    change (ser_in (reopened self)) with (skipn 10 (ser_in self)).
    match goal with
    | |- context [reply_verdict ?raw ?st] =>
        destruct (reply_verdict_not_short raw st H2) as [r2 ->]
    end.
    unfold reopened, with_open, with_taken, with_sent.
    cbn [ser_in ser_out stdout use_query_mode ser_is_open].
    rewrite skipn_skipn, Hout. reflexivity.
  - intros H1. rewrite reply_verdict_short by exact H1. reflexivity.
  - intros H1 H2.
    destruct (reply_verdict_not_short _ (reopened self) H1) as [r1 ->].
    change (ser_in (reopened self)) with (skipn 10 (ser_in self)).
    rewrite reply_verdict_short by exact H2.
    unfold reopened, with_open, with_taken, with_sent, with_line.
    cbn [ser_in ser_out stdout use_query_mode ser_is_open].
    rewrite skipn_skipn, Hout. reflexivity.
Qed.

Lemma __del___on_closed_port_examples :
  __del__ (with_open false (driver true []))
  = Return tt
      (mkSDS011 true false []
                [report_mode_command false true; sleep_command false true] [])
  /\ __del__ (with_open false (driver true [xaa; xc5; x02]))
     = Return tt
         (mkSDS011 true true [] [report_mode_command false true]
                   ["Exception when destructing SDS011 class"%string]).
Proof.
  split.
  - apply (proj1 (__del___on_closed_port (with_open false (driver true []))
                    eq_refl)); left; simpl; lia.
  - apply (proj1 (proj2 (__del___on_closed_port
                           (with_open false (driver true [xaa; xc5; x02]))
                           eq_refl))).
    simpl. lia.
Defined.

(** ** [_process_frame] and the first window of [read] *)

Lemma _process_frame_cases (data : bytes) (self : SDS011) :
  _process_frame data self
  = if (List.length data =? 11)%nat
    then Return (if checksum_ok (firstn 10 data)
                 then Some (measurement_of (firstn 10 data))
                 else None) self
    else Raise StructError self.
Proof.
  do 11 (destruct data as [|? data]; [reflexivity|]).
  destruct data as [|? data]; [|reflexivity].
  match goal with
  | |- _process_frame [?b0; ?b1; ?b2; ?b3; ?b4; ?b5; ?b6; ?b7; ?b8; ?b9; ?x] _
       = _ =>
      apply (_process_frame_11 [b0; b1; b2; b3; b4; b5; b6; b7; b8; b9] x self
               eq_refl)
  end.
Qed.

(** X10. [_process_frame] raises [struct.error] for every argument that is
    not exactly 11 bytes long (a bare 10-byte frame included) and never
    raises on 11 bytes: there it returns the measurement of the first ten
    bytes when their checksum holds and [None] when it does not. *)
Theorem _process_frame_needs_11_bytes (data : bytes) (self : SDS011) :
  (List.length data <> 11%nat ->
   _process_frame data self = Raise StructError self)
  /\ (List.length data = 11%nat ->
      _process_frame data self
      = Return (if checksum_ok (firstn 10 data)
                then Some (measurement_of (firstn 10 data))
                else None) self).
Proof.
  rewrite _process_frame_cases. split; intros Hlen.
  - apply Nat.eqb_neq in Hlen. rewrite Hlen. reflexivity.
  - rewrite Hlen. reflexivity.
Qed.

Lemma _process_frame_needs_11_bytes_examples :
  _process_frame frame_25_45 (driver false []) = Raise StructError (driver false [])
  /\ _process_frame (frame_25_45 ++ [xaa]) (driver false [])
     = Return (Some (25%float, 45%float)) (driver false []).
Proof.
  split.
  - apply (proj1 (_process_frame_needs_11_bytes frame_25_45 (driver false []))).
    simpl. lia.
  - exact (proj2 (_process_frame_needs_11_bytes (frame_25_45 ++ [xaa])
                    (driver false [])) eq_refl).
Defined.

Lemma read_first_window (fuel : nat) (self : SDS011) :
  ser_is_open self = true ->
  read (S fuel) self
  = read_iteration (read_while fuel)
      (firstn 1 (ser_in self)) (firstn 10 (skipn 1 (ser_in self)))
      (with_in (skipn 11 (ser_in self)) self).
Proof.
  intros Ho. rewrite read_open by exact Ho.
  apply read_while_step. reflexivity.
Qed.

Lemma first_window_whole (pending : bytes) :
  firstn 1 pending ++ firstn 10 (skipn 1 pending) = firstn 11 pending.
Proof. destruct pending as [|b pending]; reflexivity. Qed.

(** X11. When the first byte [read] takes is the head 0xAA and the byte
    after it is not the marker 0xC0 (a command reply, say), [read] returns
    [None] at once; the eleven bytes it took are gone. *)
Theorem read_gives_up_on_head_without_marker (fuel : nat) (self : SDS011) :
  ser_is_open self = true ->
  nth_error (ser_in self) 0 = Some xaa ->
  nth_error (ser_in self) 1 <> Some xc0 ->
  read (S fuel) self = Return None (with_in (skipn 11 (ser_in self)) self).
Proof.
  intros Ho Hh Hm. rewrite read_first_window by exact Ho.
  unfold read_iteration.
  destruct (bytes_eqb (slice (firstn 10 (skipn 1 (ser_in self))) 0 1) [xc0])
    eqn:E.
  - apply marker_test in E. contradiction.
  - apply read_while_done. apply head_test. exact Hh.
Qed.

Lemma read_gives_up_on_head_without_marker_reply :
  read 1 (driver false (report_mode_reply ++ frame_25_45 ++ [xaa]))
  = Return None (driver false (tl (frame_25_45 ++ [xaa]))).
Proof.
  apply (read_gives_up_on_head_without_marker 0
           (driver false (report_mode_reply ++ frame_25_45 ++ [xaa])));
    [reflexivity|reflexivity|discriminate].
Defined.

(** X12. When the second byte of the first window is the marker 0xC0,
    [read] ends with that window whatever its first byte: a window cut
    short by the end of the input raises [struct.error]; a whole window
    with a wrong checksum gives [None], with the advisory printed exactly
    when the cached mode is query mode. *)
Theorem read_on_marker_window (fuel : nat) (self : SDS011) :
  ser_is_open self = true ->
  nth_error (ser_in self) 1 = Some xc0 ->
  ((List.length (ser_in self) < 11)%nat ->
   read (S fuel) self = Raise StructError (with_in [] self))
  /\ ((11 <= List.length (ser_in self))%nat ->
      checksum_ok (firstn 10 (ser_in self)) = false ->
      read (S fuel) self
      = Return None
          (if use_query_mode self
           then with_line "SDS011 is in query reporting mode, use query()"
                          (with_in (skipn 11 (ser_in self)) self)
           else with_in (skipn 11 (ser_in self)) self)).
Proof.
  intros Ho Hm. rewrite read_first_window by exact Ho.
  unfold read_iteration.
  apply marker_test in Hm. rewrite Hm.
  split.
  - intros Hlen.
    unfold bind at 1. rewrite first_window_whole, _process_frame_cases.
    rewrite length_firstn.
    replace (Nat.min 11 (List.length (ser_in self)) =? 11)%nat with false
      by (symmetry; apply Nat.eqb_neq; lia).
    rewrite skipn_all2 by lia. reflexivity.
  - intros Hlen Hc.
    unfold bind at 1. rewrite first_window_whole, _process_frame_cases.
    rewrite length_firstn.
    replace (Nat.min 11 (List.length (ser_in self)) =? 11)%nat with true
      by (symmetry; apply Nat.eqb_eq; lia).
    rewrite firstn_firstn. change (Nat.min 10 11) with 10%nat.
    rewrite Hc. unfold bind, get_use_query_mode.
    cbn [use_query_mode with_in is_None andb].
    destruct (use_query_mode self); reflexivity.
Qed.

Lemma read_on_marker_window_examples :
  read 1 (driver true [x00; xc0; xfa])
  = Raise StructError (driver true [])
  /\ read 1 (driver true (x00 :: xc0 :: repeat xff 9))
     = Return None
         (with_line "SDS011 is in query reporting mode, use query()"
                    (driver true [])).
Proof.
  split.
  - apply (proj1 (read_on_marker_window 0 (driver true [x00; xc0; xfa])
                    eq_refl eq_refl)).
    simpl. lia.
  - apply (proj2 (read_on_marker_window 0
                    (driver true (x00 :: xc0 :: repeat xff 9))
                    eq_refl eq_refl));
      [simpl; lia|reflexivity].
Defined.

Lemma read_while_touches_input_only (fuel : nat) :
  forall (prev : loop_byte) (s s' : SDS011),
    final (read_while fuel prev s) = Some s' ->
    ser_out s' = ser_out s
    /\ ser_is_open s' = ser_is_open s
    /\ use_query_mode s' = use_query_mode s.
Proof.
  induction fuel as [|fuel IH]; intros prev s s' Hf;
    destruct (differs_from_HEAD prev) eqn:Hd.
  - simpl in Hf. rewrite Hd in Hf. discriminate.
  - rewrite read_while_done in Hf by exact Hd.
    injection Hf as <-. repeat split.
  - rewrite read_while_step in Hf by exact Hd.
    unfold read_iteration in Hf.
    destruct (bytes_eqb _ _).
    + unfold bind at 1 in Hf. rewrite _process_frame_cases in Hf.
      destruct (_ =? _)%nat.
      * unfold bind, get_use_query_mode in Hf.
        destruct (is_None _ && _); injection Hf as <-; repeat split.
      * injection Hf as <-. repeat split.
    + apply IH in Hf. exact Hf.
  - rewrite read_while_done in Hf by exact Hd.
    injection Hf as <-. repeat split.
Qed.

(** X13. On an open port [read] only listens: whenever it comes back,
    nothing has been written to the port, the port is still open and the
    cached mode is what it was. *)
Theorem read_only_listens (fuel : nat) (self s : SDS011) :
  ser_is_open self = true ->
  final (read fuel self) = Some s ->
  ser_out s = ser_out self
  /\ ser_is_open s = true
  /\ use_query_mode s = use_query_mode self.
Proof.
  intros Ho Hf. rewrite read_open in Hf by exact Ho.
  apply read_while_touches_input_only in Hf.
  destruct Hf as (Hout & Hopen & Hmode).
  repeat split; congruence.
Qed.

Lemma read_only_listens_frame :
  ser_out (driver false []) = ser_out (driver false (frame_25_45 ++ [xaa]))
  /\ ser_is_open (driver false []) = true
  /\ use_query_mode (driver false [])
     = use_query_mode (driver false (frame_25_45 ++ [xaa])).
Proof.
  apply (read_only_listens 1 (driver false (frame_25_45 ++ [xaa]))
           (driver false []));
    [reflexivity|vm_compute; reflexivity].
Defined.

(** ** What the checksum catches and what it does not *)

Lemma ord_inj (a b : byte) : ord a = ord b -> a = b.
Proof.
  unfold ord. intros H. apply N2Z.inj in H.
  pose proof (Byte.of_to_N a) as Ha. rewrite H, Byte.of_to_N in Ha.
  congruence.
Qed.

Lemma corrupt_length (i : nat) (b : byte) (raw : bytes) :
  (i < List.length raw)%nat ->
  List.length (corrupt i b raw) = List.length raw.
Proof.
  intros Hi. unfold corrupt.
  rewrite length_app, length_firstn.
  change (List.length (b :: skipn (S i) raw))
    with (S (List.length (skipn (S i) raw))).
  rewrite length_skipn. lia.
Qed.

Lemma corrupt_fails_checksum (i : nat) (b : byte) (raw : bytes) :
  List.length raw = 10%nat ->
  checksum_ok raw = true ->
  (2 <= i <= 8)%nat ->
  nth i raw x00 <> b ->
  checksum_ok (corrupt i b raw) = false.
Proof.
  intros Hlen Hc Hi Hb. explode raw.
  assert (Hord : forall c, c <> b -> ord c <> ord b)
    by (intros c Hn E; apply Hn, ord_inj, E).
  pose proof (ord_range b) as Rb.
  unfold checksum_ok, corrupt, slice in *.
  assert (Hcases : (i = 2 \/ i = 3 \/ i = 4 \/ i = 5 \/ i = 6 \/ i = 7
                    \/ i = 8)%nat) by lia.
  destruct Hcases as [->|[->|[->|[->|[->|[->| ->]]]]]];
    simpl in *; apply Hord in Hb;
    apply Z.eqb_eq in Hc; apply Z.eqb_neq;
    rewrite !py_sum_cons, py_sum_nil in *;
    repeat match goal with
           | c : byte |- _ =>
               lazymatch goal with
               | _ : 0 <= ord c < 256 |- _ => fail
               | _ => pose proof (ord_range c)
               end
           end;
    Z.div_mod_to_equations; lia.
Qed.

(** X14. The checksum catches every change of a single byte among bytes 2
    to 8 of a valid 10-byte reply: the changed reply is dropped by
    [_get_reply], and [query] returns [None] for it. *)
Theorem single_byte_corruption_is_caught
  (raw rest : bytes) (i : nat) (b : byte) (self : SDS011) :
  ser_is_open self = true ->
  List.length raw = 10%nat ->
  checksum_ok raw = true ->
  (2 <= i <= 8)%nat ->
  nth i raw x00 <> b ->
  ser_in self = corrupt i b raw ++ rest ->
  returned (_get_reply self) = Some None
  /\ returned (query self) = Some None.
Proof.
  intros Ho Hlen Hc Hi Hb Hin.
  assert (Hlen' : List.length (corrupt i b raw) = 10%nat)
    by (rewrite corrupt_length; lia).
  assert (Hraw : firstn 10 (ser_in self) = corrupt i b raw)
    by (rewrite Hin; apply firstn_whole_reply; exact Hlen').
  pose proof (corrupt_fails_checksum i b raw Hlen Hc Hi Hb) as Hbad.
  split.
  - unfold _get_reply. rewrite _get_reply_open by exact Ho.
    rewrite Hraw, reply_verdict_full by lia. rewrite Hbad. reflexivity.
  - rewrite query_open by exact Ho.
    rewrite Hraw, reply_verdict_full by lia. rewrite Hbad. reflexivity.
Qed.

Lemma single_byte_corruption_is_caught_low_byte :
  returned (_get_reply (driver true (corrupt 2 xfb frame_25_45))) = Some None
  /\ returned (query (driver true (corrupt 2 xfb frame_25_45))) = Some None.
Proof.
  apply (single_byte_corruption_is_caught frame_25_45 [] 2 xfb
           (driver true (corrupt 2 xfb frame_25_45)));
    try reflexivity; [simpl; lia|discriminate].
Defined.

Lemma checksum_ok_bytes_2_to_8 (raw raw' : bytes) :
  List.length raw = 10%nat -> List.length raw' = 10%nat ->
  slice raw 2 9 = slice raw' 2 9 ->
  checksum_ok raw = checksum_ok raw'
  /\ measurement_of raw = measurement_of raw'
  /\ nth 4 raw x00 = nth 4 raw' x00
  /\ firmware_string raw = firmware_string raw'.
Proof.
  intros Hlen Hlen' Hs. explode raw. explode raw'.
  unfold slice in Hs. simpl in Hs.
  injection Hs as -> -> -> -> -> -> ->.
  repeat split.
Qed.

(** X15. Only bytes 2 to 8 of a 10-byte reply matter: the head, the command
    echo at offset 1 and the tail are never looked at, so two replies that
    agree on bytes 2 to 8 get the same result from [set_report_mode],
    [query], [sleep] and [check_firmware_version]. *)
Theorem reply_head_echo_and_tail_unchecked
  (raw raw' rest : bytes) (r f : bool) (self : SDS011) :
  ser_is_open self = true ->
  List.length raw = 10%nat ->
  List.length raw' = 10%nat ->
  slice raw 2 9 = slice raw' 2 9 ->
  ser_in self = raw ++ rest ->
  set_report_mode r f self = set_report_mode r f (with_in (raw' ++ rest) self)
  /\ query self = query (with_in (raw' ++ rest) self)
  /\ sleep r f self = sleep r f (with_in (raw' ++ rest) self)
  /\ returned (check_firmware_version self)
     = returned (check_firmware_version (with_in (raw' ++ rest) self))
  /\ raises (check_firmware_version self)
     = raises (check_firmware_version (with_in (raw' ++ rest) self)).
Proof.
  intros Ho Hlen Hlen' Hs Hin.
  destruct (checksum_ok_bytes_2_to_8 raw raw' Hlen Hlen' Hs)
    as (Hc & Hm & H4 & Hfw).
  assert (Ho' : ser_is_open (with_in (raw' ++ rest) self) = true) by exact Ho.
  assert (Hraw : firstn 10 (ser_in self) = raw)
    by (rewrite Hin; apply firstn_whole_reply; exact Hlen).
  assert (Hraw' : firstn 10 (ser_in (with_in (raw' ++ rest) self)) = raw')
    by (apply firstn_whole_reply; exact Hlen').
  assert (Hrest : forall cmd s0,
             ser_in s0 = ser_in self ->
             with_taken 10 (with_sent cmd (with_in (raw' ++ rest) s0))
             = with_taken 10 (with_sent cmd s0)).
  { intros cmd s0 E. unfold with_taken, with_sent, with_in.
    cbn [ser_in ser_out stdout use_query_mode ser_is_open].
    rewrite E, Hin, !skipn_app, Hlen, Hlen'.
    rewrite (skipn_all2 raw), (skipn_all2 raw') by lia.
    reflexivity. }
  repeat split.
  - unfold set_report_mode. rewrite !set_report_mode_open by assumption.
    rewrite Hraw, Hraw'.
    change (with_mode f (with_in (raw' ++ rest) self))
      with (with_in (raw' ++ rest) (with_mode f self)).
    rewrite Hrest by reflexivity.
    rewrite !reply_verdict_full by lia. rewrite <- Hc.
    destruct (checksum_ok raw); [rewrite H4|]; reflexivity.
  - rewrite !query_open by assumption. rewrite Hraw, Hraw', Hrest by reflexivity.
    rewrite !reply_verdict_full by lia. rewrite <- Hc.
    destruct (checksum_ok raw); [rewrite Hm|]; reflexivity.
  - rewrite !sleep_open by assumption. rewrite Hraw, Hraw', Hrest by reflexivity.
    rewrite !reply_verdict_full by lia. rewrite <- Hc.
    destruct (checksum_ok raw); [rewrite H4|]; reflexivity.
  - rewrite !check_firmware_version_open by assumption.
    rewrite Hraw, Hraw', Hrest by reflexivity.
    rewrite !reply_verdict_full by lia. rewrite <- Hc.
    destruct (checksum_ok raw); [simpl; rewrite Hfw|]; reflexivity.
  - rewrite !check_firmware_version_open by assumption.
    rewrite Hraw, Hraw', Hrest by reflexivity.
    rewrite !reply_verdict_full by lia. rewrite <- Hc.
    destruct (checksum_ok raw); reflexivity.
Qed.

Lemma reply_head_echo_and_tail_unchecked_relabelled :
  query (driver true frame_25_45) = query (driver true frame_25_45_relabelled)
  /\ sleep false true (driver true frame_25_45)
     = sleep false true (driver true frame_25_45_relabelled).
Proof.
  destruct (reply_head_echo_and_tail_unchecked
              frame_25_45 frame_25_45_relabelled [] false true
              (driver true frame_25_45)
              eq_refl eq_refl eq_refl eq_refl eq_refl)
    as (_ & Hq & Hs & _).
  split; [exact Hq|exact Hs].
Defined.

(** ** The constructor, whatever the device answers *)

(** X16. The constructor writes exactly one command, the report-mode write
    for the requested mode, and reads one reply; it returns with the port
    open and the mode cached unless that reply has three to eight bytes,
    in which case the [IndexError] leaves the constructor. *)
Theorem __init___outcome (query_flag : bool) (device : bytes) :
  __init__ query_flag device
  = (if (3 <=? List.length device)%nat && (List.length device <=? 8)%nat
     then Raise IndexError
     else Return tt)
      (mkSDS011 query_flag true (skipn 10 device)
                [report_mode_command false query_flag] []).
Proof.
  unfold __init__, bind at 1 2 3, serial_Serial, ser_flush, ret.
  unfold bind, set_report_mode.
  rewrite set_report_mode_open by reflexivity.
  match goal with
  | |- context [reply_verdict ?raw ?st] =>
      destruct (reply_verdict_cases raw st)
        as [[Hl E]|[[Hl E]|[[Hl [_ E]]|[Hl [_ E]]]]]; rewrite E
  end;
  cbn [ser_in with_open] in Hl; rewrite length_firstn in Hl.
  all: destruct (Nat.leb_spec 3 (List.length device));
    destruct (Nat.leb_spec (List.length device) 8);
    cbn [andb]; try lia; reflexivity.
Qed.

(** ** How much input [read] takes *)

Lemma read_while_whole_windows (fuel : nat) :
  forall (prev : loop_byte) (s s' : SDS011),
    final (read_while fuel prev s) = Some s' ->
    exists k, (k <= fuel)%nat
              /\ (differs_from_HEAD prev = true -> 1 <= k)%nat
              /\ ser_in s' = skipn (11 * k) (ser_in s).
Proof.
  induction fuel as [|fuel IH]; intros prev s s' Hf;
    destruct (differs_from_HEAD prev) eqn:Hd.
  - simpl in Hf. rewrite Hd in Hf. discriminate.
  - rewrite read_while_done in Hf by exact Hd. injection Hf as <-.
    exists 0%nat. split; [lia|]. split; [discriminate|reflexivity].
  - rewrite read_while_step in Hf by exact Hd.
    unfold read_iteration in Hf.
    destruct (bytes_eqb _ _).
    + exists 1%nat. split; [lia|]. split; [lia|].
      unfold bind at 1 in Hf. rewrite _process_frame_cases in Hf.
      destruct (_ =? _)%nat.
      * unfold bind, get_use_query_mode in Hf.
        destruct (is_None _ && _); injection Hf as <-; reflexivity.
      * injection Hf as <-. reflexivity.
    + apply IH in Hf. destruct Hf as (k & Hk & _ & Hin).
      exists (S k). split; [lia|]. split; [lia|].
      rewrite Hin. cbn [ser_in with_in]. rewrite skipn_skipn.
      f_equal. lia.
  - rewrite read_while_done in Hf by exact Hd. injection Hf as <-.
    exists 0%nat. split; [lia|]. split; [discriminate|reflexivity].
Qed.

(** X17. [read] takes its input in whole windows of eleven bytes: whenever
    it comes back on an open port, it has taken at least one window and at
    most one per iteration, and what is left of the input starts right
    after the last window. *)
Theorem read_consumes_whole_windows (fuel : nat) (self s : SDS011) :
  ser_is_open self = true ->
  final (read fuel self) = Some s ->
  exists k, (1 <= k <= fuel)%nat
            /\ ser_in s = skipn (11 * k) (ser_in self).
Proof.
  intros Ho Hf. rewrite read_open in Hf by exact Ho.
  apply read_while_whole_windows in Hf.
  destruct Hf as (k & Hk & H1 & Hin).
  exists k. split; [split; [apply H1; reflexivity|exact Hk]|exact Hin].
Qed.

Lemma read_consumes_whole_windows_frame :
  exists k, (1 <= k <= 3)%nat
            /\ ser_in (driver false [xc0; x11])
               = skipn (11 * k)
                   (ser_in (driver false (frame_25_45 ++ [xaa; xc0; x11]))).
Proof.
  apply (read_consumes_whole_windows 3
           (driver false (frame_25_45 ++ [xaa; xc0; x11]))
           (driver false [xc0; x11]));
    [reflexivity|vm_compute; reflexivity].
Defined.
